(** * EIP-6475: the merkleized [Optional[T]] container

    A verification development for [assets/eip-6475/optional.py].  The
    container is a view over an immutable binary tree
    [PairNode(contents, length)].  The methods of [Optional] are transcribed
    in module [Optional], line by line.

    The tree, the view base classes, [uint256] and the element types are
    those of the [remerkleable] package, which the module imports and whose
    code is not part of the repository.  The specification names them as
    external collaborators (section 6); they are modelled in [Tree],
    [Uint256], [View] and [MonoSubtreeView], after the package's
    definitions. *)

From Stdlib Require Import ZArith List String Bool Lia.
From Stdlib Require Import Strings.Byte.
From ExtLib Require Import Structures.Monad Structures.MonadExc.
Import ListNotations.
Import MonadNotation.
Local Open Scope Z_scope.
Local Open Scope monad_scope.

Set Implicit Arguments.

(** ** Python exceptions and the error monad *)

Module Py.

(** The exceptions a call into [optional.py] can end with.  [ElementError]
    stands for whatever the element type raises (a failed coercion, a
    malformed stream).  [Hang] is not an exception: it marks a call that
    does not return. *)
Inductive exn : Type :=
| NameError (name : string)
| KeyError
| TypeError
| ValueError
| AssertionError
| ZeroDivisionError
| NavigationError
| Exception (msg : string)
| ElementError (msg : string)
| Hang.

Inductive result (A : Type) : Type :=
| Ok (a : A)
| Err (e : exn).

Arguments Ok {A} a.
Arguments Err {A} e.

#[global] Instance Monad_result : Monad result :=
  {| ret := fun _ a => Ok a;
     bind := fun _ _ m k => match m with Ok a => k a | Err e => Err e end |}.

#[global] Instance Exc_result : MonadExc exn result :=
  {| raise := fun _ e => Err e;
     catch := fun _ m h => match m with Ok a => Ok a | Err e => h e end |}.

(** [assert cond] *)
Definition py_assert (cond : bool) : result unit :=
  if cond then Ok tt else Err AssertionError.

(** Reading a module-level name: bound names yield their value, a name
    that no import or assignment of the module binds raises [NameError]. *)
Definition global {A : Type} (name : string) (binding : option A) : result A :=
  match binding with
  | Some a => Ok a
  | None => Err (NameError name)
  end.

End Py.
Import Py.

(** ** Chunks: 32-byte roots and little-endian integers *)

Definition Root : Type := list byte.

Definition byte_of_Z (z : Z) : byte :=
  match Byte.of_N (Z.to_N (z mod 256)) with
  | Some b => b
  | None => x00
  end.

Definition Z_of_byte (b : byte) : Z := Z.of_N (Byte.to_N b).

(** [int.to_bytes(length, 'little')] *)
Fixpoint to_le_bytes (len : nat) (z : Z) : list byte :=
  match len with
  | O => []
  | S k => byte_of_Z z :: to_le_bytes k (z / 256)
  end.

(** [int.from_bytes(bs, 'little')] *)
Fixpoint from_le_bytes (bs : list byte) : Z :=
  match bs with
  | [] => 0
  | b :: rest => Z_of_byte b + 256 * from_le_bytes rest
  end.

(** [bs.ljust(32, b'\x00')]: right-pad to a whole chunk. *)
Definition pad_chunk (bs : list byte) : Root :=
  bs ++ repeat x00 (32 - List.length bs).

Definition ZERO_ROOT : Root := repeat x00 32.

(** ** remerkleable.tree: immutable binary trees addressed by generalized index

    Modelled from the spec: the node abstraction of section 6 (children,
    path-scoped replacement with or without expansion, summarization of a
    subtree into its root, zero subtrees, rebinding the right child) and
    the generalized indices of the glossary.  The module is imported by
    [optional.py] and is not under src/. *)

Definition Gindex : Type := Z.

Inductive Node : Type :=
| RootNode (root : Root)
| PairNode (left right : Node).

Module Tree.

Definition ROOT_GINDEX : Gindex := 1.
Definition LEFT_GINDEX : Gindex := 2.
Definition RIGHT_GINDEX : Gindex := 3.

(** Modelled from the spec: [depth(limit)] of section 3, the package's
    [get_depth(elem_count)]: the depth of a subtree with room for that many
    leaves. *)
Definition get_depth (elem_count : Z) : Z :=
  if elem_count <=? 1 then 0 else Z.log2 (elem_count - 1) + 1.

(** Modelled from the spec: the generalized index of position [index] in a
    tree of the given depth, the package's [to_gindex(index, depth)]. *)
Definition to_gindex (index depth : Z) : result Gindex :=
  if depth <? 0 then raise ValueError else
  let anchor := Z.shiftl 1 depth in
  if anchor <=? index then raise (Exception "index too large for depth")
  else ret (Z.lor anchor index).

Definition get_left (n : Node) : result Node :=
  match n with
  | PairNode l _ => ret l
  | RootNode _ => raise NavigationError
  end.

Definition get_right (n : Node) : result Node :=
  match n with
  | PairNode _ r => ret r
  | RootNode _ => raise NavigationError
  end.

Definition rebind_left (n : Node) (v : Node) : result Node :=
  match n with
  | PairNode _ r => ret (PairNode v r)
  | RootNode _ => raise NavigationError
  end.

Definition rebind_right (n : Node) (v : Node) : result Node :=
  match n with
  | PairNode l _ => ret (PairNode l v)
  | RootNode _ => raise NavigationError
  end.

(** The turns of a generalized index, from the root down: the bits below
    its leading one, [false] for left and [true] for right. *)
Fixpoint turns_up (p : positive) : list bool :=
  match p with
  | xH => []
  | xO q => false :: turns_up q
  | xI q => true :: turns_up q
  end.

Definition turns (target : Gindex) : result (list bool) :=
  match target with
  | Zpos p => ret (rev (turns_up p))
  | _ => raise NavigationError
  end.

Fixpoint getter_from (n : Node) (path : list bool) : result Node :=
  match path with
  | [] => ret n
  | b :: rest =>
      child <- (if b then get_right n else get_left n) ;;
      getter_from child rest
  end.

(** Modelled from the spec: navigation by generalized index,
    [node.getter(target)]. *)
Definition getter (n : Node) (target : Gindex) : result Node :=
  path <- turns target ;;
  getter_from n path.

Section Hashing.

(** The pair hash (SHA-256 of the two roots); the development does not
    depend on which function it is. *)
Variable merkle_hash : Root -> Root -> Root.

Fixpoint merkle_root (n : Node) : Root :=
  match n with
  | RootNode r => r
  | PairNode l r => merkle_hash (merkle_root l) (merkle_root r)
  end.

Fixpoint zero_hash (depth : nat) : Root :=
  match depth with
  | O => ZERO_ROOT
  | S d => merkle_hash (zero_hash d) (zero_hash d)
  end.

(** Modelled from the spec: [zeroSubtree(depth)], the package's
    [zero_node(depth)]: the summary leaf of an all-zero subtree. *)
Definition zero_node (depth : Z) : Node :=
  RootNode (zero_hash (Z.to_nat depth)).

(** Modelled from the spec: [pathReplace(generalizedIndex, newSubtree,
    expand)], the package's [node.setter(target, expand)]: the link that
    rebuilds the path from the root to [target] around a new subtree.  A
    leaf on the way is an error unless [expand] is set, in which case it is
    opened into a pair of zero subtrees. *)
Fixpoint setter_from (n : Node) (path : list bool) (expand : bool)
  : result (Node -> Node) :=
  match path with
  | [] => ret (fun v => v)
  | b :: rest =>
      match n with
      | PairNode l r =>
          if b then
            k <- setter_from r rest expand ;;
            ret (fun v => PairNode l (k v))
          else
            k <- setter_from l rest expand ;;
            ret (fun v => PairNode (k v) r)
      | RootNode _ =>
          if expand then
            let child := zero_node (Z.of_nat (List.length rest)) in
            k <- setter_from child rest expand ;;
            ret (fun v => if b then PairNode child (k v)
                          else PairNode (k v) child)
          else raise NavigationError
      end
  end.

Definition setter (n : Node) (target : Gindex) (expand : bool)
  : result (Node -> Node) :=
  path <- turns target ;;
  setter_from n path expand.

(** Modelled from the spec: [summarizeZero(generalizedIndex)], the
    package's [node.summarize_into(target)]: the link that replaces the
    subtree at [target] by a leaf holding its root. *)
Definition summarize_into (n : Node) (target : Gindex)
  : result (unit -> Node) :=
  set_target <- setter n target false ;;
  sub <- getter n target ;;
  ret (fun _ => set_target (RootNode (merkle_root sub))).

(** Modelled from the spec: the packing of encoded values into the contents
    subtree (section 4.2), the package's
    [subtree_fill_to_contents(nodes, depth)]. *)
Fixpoint subtree_fill (nodes : list Node) (depth : nat) : result Node :=
  match nodes with
  | [] => ret (zero_node (Z.of_nat depth))
  | first :: others =>
      match depth with
      | O => match others with
             | [] => ret first
             | _ => raise NavigationError
             end
      | S d =>
          let pivot := Nat.pow 2 d in
          if Nat.leb (List.length nodes) pivot then
            l <- subtree_fill nodes d ;;
            ret (PairNode l (zero_node (Z.of_nat d)))
          else
            l <- subtree_fill (firstn pivot nodes) d ;;
            r <- subtree_fill (skipn pivot nodes) d ;;
            ret (PairNode l r)
      end
  end.

Definition subtree_fill_to_contents (nodes : list Node) (depth : Z)
  : result Node :=
  subtree_fill nodes (Z.to_nat depth).

End Hashing.

End Tree.

(** ** remerkleable.basic: [uint256], the type of the length mix-in

    Modelled from the spec: the length child is a fixed-width unsigned
    integer leaf (section 3); [uint256] is imported by [optional.py] and is
    not under src/. *)

Module Uint256.

Definition type_byte_length : Z := 32.

(** [uint256(n)]: the constructor checks the range. *)
Definition new (n : Z) : result Z :=
  if (n <? 0) || (2 ^ 256 <=? n) then raise ValueError else ret n.

(** [x.get_backing()]: the value in a chunk of its own, little-endian. *)
Definition get_backing (x : Z) : Node :=
  RootNode (pad_chunk (to_le_bytes 32 x)).

Section Hashing.
Variable merkle_hash : Root -> Root -> Root.

(** [uint256.view_from_backing(node, hook)]: decodes the first 32 bytes
    of the node's root. *)
Definition view_from_backing (node : Node) : Z :=
  from_le_bytes (firstn 32 (Tree.merkle_root merkle_hash node)).
End Hashing.

End Uint256.

(** ** Element types

    Modelled from the spec: the element type descriptor of sections 3 and 6,
    the interface [Optional] uses of its element type [T] (a [View] class of
    remerkleable).  [V] is the type of its values, [Raw] of the inputs,
    other than views, that [coerce_view] accepts. *)

Module View.

Record t (V Raw : Type) : Type := {
(** [isinstance(element_type, BasicView)] *)
is_basic_view : bool;
min_byte_length : Z;
max_byte_length : Z;
is_fixed_byte_length : bool;
type_byte_length : result Z;
coerce_view : Raw -> result V;
get_backing : V -> Node;
view_from_backing : Node -> result V;
(** packed views: [pack_views], [basic_view_from_backing(chunk, i)],
    [v.backing_from_base(chunk, i)] *)
pack_views : list V -> list Node;
basic_view_from_backing : Node -> Z -> result V;
backing_from_base : V -> Node -> Z -> Node;
value_byte_length : V -> Z;
(** [v.serialize(stream)] writes these bytes and returns their number. *)
serialize : V -> list byte;
(** [T.deserialize(stream, scope)]: the value and the rest of the stream. *)
deserialize : list byte -> Z -> result (V * list byte)
}.

End View.

(** An argument that is either a view of [T] already or a raw input. *)
Inductive Input (V Raw : Type) : Type :=
| IView (v : V)
| IRaw (r : Raw).

Arguments IView {V Raw} v.
Arguments IRaw {V Raw} r.

(** Navigation keys: an index, or a name such as ['__is_some__']. *)
Inductive Key : Type :=
| KInt (k : Z)
| KStr (s : string).

(** [key == name], [key >= n] and the key as an index: comparing a name
    with a number is a [TypeError]. *)
Definition key_eq_str (key : Key) (name : string) : bool :=
  match key with
  | KStr s => String.eqb s name
  | KInt _ => false
  end.

Definition key_ge (key : Key) (n : Z) : result bool :=
  match key with
  | KInt k => ret (n <=? k)
  | KStr _ => raise TypeError
  end.

Definition key_index (key : Key) : result Z :=
  match key with
  | KInt k => ret k
  | KStr _ => raise TypeError
  end.

(** [a // b] and [a % b] *)
Definition floordiv (a b : Z) : result Z :=
  if b =? 0 then raise ZeroDivisionError else ret (a / b).

Definition pymod (a b : Z) : result Z :=
  if b =? 0 then raise ZeroDivisionError else ret (a mod b).

(** ** The class attributes of a specialization and the view object *)

(** What [SpecialOptionView] closes over ([optional.py], lines 35-54). *)
Record OptionalCls (V Raw : Type) : Type := {
  is_packed : bool;
  contents_depth : Z;
  element_cls : View.t V Raw;
  limit : Z
}.

(** A view object: its backing tree.  Views are modelled without a hook
    (the [hook=None] of a view that is not a field of another view). *)
Record OptionalView : Type := { backing : Node }.

Definition get_backing_of (self : OptionalView) : Node := backing self.
Definition set_backing (self : OptionalView) (b : Node) : OptionalView :=
  {| backing := b |}.

(** ** remerkleable.complex / remerkleable.subtree: the parent view

    Modelled from the spec: the generic view machinery of section 1, not
    under src/.  These are the methods of [MonoSubtreeView] that [Optional]
    reaches through [super()] or inherits, at a class with the attributes
    above. *)

Module MonoSubtreeView.
Section Methods.
Context {V Raw : Type}.
Variable merkle_hash : Root -> Root -> Root.
Variable cls : OptionalCls V Raw.
(** [cls.tree_depth()], as the subclass defines it. *)
Variable tree_depth : Z.

Let elem := element_cls cls.

(** Modelled from the spec: [cls.views_into_chunks(views)], the encoding of
    views as chunks, packed for a basic type (section 4.2). *)
Definition views_into_chunks (views : list V) : result (list Node) :=
  if is_packed cls then
    if View.is_basic_view elem then ret (View.pack_views elem views)
    else raise (Exception "cannot append a packed element that is not a basic type")
  else ret (map (View.get_backing elem) views).

(** Modelled from the spec: [super().get(i)], the value at position [i] of
    the contents, decoded as packed or not (section 4.3). *)
Definition get (self : OptionalView) (i : Z) : result V :=
  if is_packed cls then
    size <- View.type_byte_length elem ;;
    elems_per_chunk <- floordiv 32 size ;;
    chunk_i <- floordiv i elems_per_chunk ;;
    target <- Tree.to_gindex chunk_i tree_depth ;;
    chunk <- Tree.getter (get_backing_of self) target ;;
    offset <- pymod i elems_per_chunk ;;
    View.basic_view_from_backing elem chunk offset
  else
    target <- Tree.to_gindex i tree_depth ;;
    node <- Tree.getter (get_backing_of self) target ;;
    View.view_from_backing elem node.

(** Modelled from the spec: [super().set(i, v)], the same-slot overwrite of
    section 4.4: coerce [v] if needed and replace position [i] by
    path-scoped replacement. *)
Definition set (self : OptionalView) (i : Z) (v : Input V Raw)
  : result OptionalView :=
  v <- match v with
       | IView v => ret v
       | IRaw r => View.coerce_view elem r
       end ;;
  if is_packed cls then
    size <- View.type_byte_length elem ;;
    elems_per_chunk <- floordiv 32 size ;;
    chunk_i <- floordiv i elems_per_chunk ;;
    target <- Tree.to_gindex chunk_i tree_depth ;;
    chunk_setter_link <- Tree.setter merkle_hash (get_backing_of self) target false ;;
    chunk <- Tree.getter (get_backing_of self) target ;;
    offset <- pymod i elems_per_chunk ;;
    let new_chunk := View.backing_from_base elem v chunk offset in
    ret (set_backing self (chunk_setter_link new_chunk))
  else
    target <- Tree.to_gindex i tree_depth ;;
    setter_link <- Tree.setter merkle_hash (get_backing_of self) target false ;;
    ret (set_backing self (setter_link (View.get_backing elem v))).

(** Modelled from the spec: [super().navigate_type(key)].  Section 4.7 has
    every key other than 0 fail; the keys below 0 are turned down here, in
    the parent. *)
Definition navigate_type (key : Z) : result (View.t V Raw) :=
  if key <? 0 then raise KeyError else ret elem.

(** Modelled from the spec: [super().key_to_static_gindex(key)], the
    position of slot [key] (of its chunk, for a packed type). *)
Definition key_to_static_gindex (key : Z) : result Gindex :=
  if key <? 0 then raise KeyError else
  if is_packed cls then
    size <- View.type_byte_length elem ;;
    elems_per_chunk <- floordiv 32 size ;;
    chunk_i <- floordiv key elems_per_chunk ;;
    Tree.to_gindex chunk_i tree_depth
  else Tree.to_gindex key tree_depth.

End Methods.
End MonoSubtreeView.

(** ** optional.py *)

Module Optional.

(** The module-level names that method bodies of [optional.py] read and
    that its import lines may or may not bind.  [to_gindex] and
    [RIGHT_GINDEX] are definitions of [remerkleable.tree]; [el] is the
    free variable of [value_byte_length]. *)
Record Namespace (V : Type) : Type := {
  ns_to_gindex : option (Z -> Z -> result Gindex);
  ns_RIGHT_GINDEX : option Gindex;
  ns_el : option V
}.

(** The namespace of the module as written: lines 1-7 import [Gindex],
    [Node], [PairNode], [get_depth], [subtree_fill_to_contents] and
    [zero_node] from [remerkleable.tree], and none of the three names. *)
Definition as_written (V : Type) : Namespace V :=
  {| ns_to_gindex := None; ns_RIGHT_GINDEX := None; ns_el := None |}.

(** The namespace the module would have with [to_gindex] and
    [RIGHT_GINDEX] added to the import from [remerkleable.tree]. *)
Definition with_tree_imports (V : Type) : Namespace V :=
  {| ns_to_gindex := Some Tree.to_gindex;
     ns_RIGHT_GINDEX := Some Tree.RIGHT_GINDEX;
     ns_el := None |}.

(** The loop of [set], lines 87-88:
    [while (target & 1) == 0 and target != 0b10: target >>= 1].
    The result carries the number of times the body ran. *)
Definition walk_guard (target : Gindex) : bool :=
  (Z.land target 1 =? 0) && negb (target =? 2).

Fixpoint summarize_walk (fuel : nat) (target : Gindex) (runs : nat)
  : result (Gindex * nat) :=
  if walk_guard target then
    match fuel with
    | O => Err Hang
    | S fuel' => summarize_walk fuel' (Z.shiftr target 1) (S runs)
    end
  else ret (target, runs).

Section Methods.
Context {V Raw : Type}.
Variable merkle_hash : Root -> Root -> Root.
Variable ns : Namespace V.

(** [Optional.__class_getitem__(element_type)], lines 31-57 *)
Definition class_getitem (element_type : View.t V Raw)
  : result (OptionalCls V Raw) :=
  if View.min_byte_length element_type =? 0 then
    raise (Exception "Invalid option type")
  else
    let limit := 1 in
    let contents_depth := Tree.get_depth limit in
    let packed := View.is_basic_view element_type in
    ret {| is_packed := packed;
           contents_depth := contents_depth;
           element_cls := element_type;
           limit := limit |}.

Variable cls : OptionalCls V Raw.

(** [cls.tree_depth()], lines 128-130 *)
Definition tree_depth : Z := contents_depth cls + 1.

(** [cls.default_node()], lines 161-163 *)
Definition default_node : Node :=
  PairNode (Tree.zero_node merkle_hash (contents_depth cls))
           (Tree.zero_node merkle_hash 0).

(** [BackedView.__new__(cls, backing, hook)] *)
Definition backed_view_new (backing : option Node) : OptionalView :=
  match backing with
  | Some b => {| backing := b |}
  | None => {| backing := default_node |}
  end.

(** [Optional.__new__(cls, value, backing, hook)], lines 12-29 *)
Definition new (value : option (Input V Raw)) (backing : option Node)
  : result OptionalView :=
  match backing with
  | Some b =>
      match value with
      | Some _ =>
          raise (Exception "cannot have both a backing and a value to init Optional")
      | None => ret (backed_view_new (Some b))
      end
  | None =>
      let elem_cls := element_cls cls in
      py_assert (limit cls =? 1) ;;
      input_views <- match value with
                     | Some (IView v) => ret [v]
                     | Some (IRaw r) => v <- View.coerce_view elem_cls r ;; ret [v]
                     | None => ret []
                     end ;;
      input_nodes <- MonoSubtreeView.views_into_chunks cls input_views ;;
      contents <- Tree.subtree_fill_to_contents merkle_hash input_nodes
                    (contents_depth cls) ;;
      len <- Uint256.new (Z.of_nat (List.length input_views)) ;;
      let backing := PairNode contents (Uint256.get_backing len) in
      ret (backed_view_new (Some backing))
  end.

(** [self.length()], lines 59-62 *)
Definition length (self : OptionalView) : result Z :=
  ll_node <- Tree.get_right (get_backing_of self) ;;
  let ll := Uint256.view_from_backing merkle_hash ll_node in
  ret ll.

(** [self.value_byte_length()], lines 64-72 *)
Definition value_byte_length (self : OptionalView) : result Z :=
  len <- length self ;;
  if len =? 0 then ret 0 else
  let elem_cls := element_cls cls in
  if View.is_fixed_byte_length elem_cls then View.type_byte_length elem_cls
  else
    el <- global "el" (ns_el ns) ;;
    ret (View.value_byte_length elem_cls el).

(** [self.get()], lines 74-75 *)
Definition get (self : OptionalView) : result (option V) :=
  len <- length self ;;
  if len =? 0 then ret None
  else v <- MonoSubtreeView.get cls tree_depth self 0 ;; ret (Some v).


(** The clearing branch of [set], lines 81-91: the new backing before the
    length is rebound, the new length node, and the number of times the
    body of the loop ran. *)
Definition set_clear (self : OptionalView) : result (Node * Node * nat) :=
  let i := 0 in
  to_gindex <- global "to_gindex" (ns_to_gindex ns) ;;
  target <- to_gindex i tree_depth ;;
  set_last <- Tree.setter merkle_hash (get_backing_of self) target false ;;
  let next_backing := set_last (Tree.zero_node merkle_hash 0) in
  let can_summarize := Z.land target 1 =? 0 in
  summarized <-
    (if can_summarize then
       walked <- summarize_walk (Z.to_nat (Z.abs target)) target 0 ;;
       let target := fst walked in
       summary_fn <- Tree.summarize_into merkle_hash next_backing target ;;
       ret (summary_fn tt, snd walked)
     else ret (next_backing, O)) ;;
  new_length <- Uint256.new i ;;
  ret (fst summarized, Uint256.get_backing new_length, snd summarized).

(** The branch of [set] that fills an absent instance, lines 96-103. *)
Definition set_fill (self : OptionalView) (v : Input V Raw)
  : result (Node * Node) :=
  let i := 0 in
  let elem_type := element_cls cls in
  v <- match v with
       | IView v => ret v
       | IRaw r => View.coerce_view elem_type r
       end ;;
  to_gindex <- global "to_gindex" (ns_to_gindex ns) ;;
  target <- to_gindex i tree_depth ;;
  set_last <- Tree.setter merkle_hash (get_backing_of self) target true ;;
  let next_backing := set_last (View.get_backing elem_type v) in
  new_length <- Uint256.new (i + 1) ;;
  ret (next_backing, Uint256.get_backing new_length).

(** Lines 105-107: rebind the length child and commit. *)
Definition set_commit (self : OptionalView) (next_backing new_length : Node)
  : result OptionalView :=
  next_backing <- Tree.rebind_right next_backing new_length ;;
  ret (set_backing self next_backing).

(** [self.set(v)], lines 77-107.  The result is the view after the call. *)
Definition set (self : OptionalView) (v : option (Input V Raw))
  : result OptionalView :=
  match v with
  | None =>
      len <- length self ;;
      if len =? 0 then ret self
      else
        cleared <- set_clear self ;;
        set_commit self (fst (fst cleared)) (snd (fst cleared))
  | Some v =>
      len <- length self ;;
      if len =? 1 then MonoSubtreeView.set merkle_hash cls tree_depth self 0 v
      else
        filled <- set_fill self v ;;
        set_commit self (fst filled) (snd filled)
  end.

(** [cls.deserialize(stream, scope)], lines 136-141: the instance and the
    stream that is left. *)
Definition deserialize (stream : list byte) (scope : Z)
  : result (OptionalView * list byte) :=
  if scope =? 0 then
    x <- new None None ;;
    ret (x, stream)
  else
    read <- View.deserialize (element_cls cls) stream scope ;;
    x <- new (Some (IView (fst read))) None ;;
    ret (x, snd read).

(** [self.serialize(stream)], lines 143-145: the number returned and the
    stream after the call. *)
Definition serialize (self : OptionalView) (stream : list byte)
  : result (Z * list byte) :=
  v <- get self ;;
  match v with
  | None => ret (0, stream)
  | Some v =>
      let written := View.serialize (element_cls cls) v in
      ret (Z.of_nat (List.length written), stream ++ written)
  end.

(** [cls.navigate_type(key)], lines 147-151 *)
Definition navigate_type (key : Key) : result (View.t V Raw) :=
  too_large <- key_ge key (limit cls) ;;
  if too_large : bool then raise KeyError
  else
    k <- key_index key ;;
    MonoSubtreeView.navigate_type cls k.

(** [cls.key_to_static_gindex(key)], lines 153-159 *)
Definition key_to_static_gindex (key : Key) : result Gindex :=
  if key_eq_str key "__is_some__" then
    global "RIGHT_GINDEX" (ns_RIGHT_GINDEX ns)
  else
    too_large <- key_ge key (limit cls) ;;
    if too_large : bool then raise KeyError
    else
      k <- key_index key ;;
      MonoSubtreeView.key_to_static_gindex cls tree_depth k.

(** Lines 165-176 *)
Definition is_fixed_byte_length : bool := false.
Definition min_byte_length : Z := 0.
Definition max_byte_length : Z := View.max_byte_length (element_cls cls).

End Methods.

Section Repr.
Context {V Raw : Type}.
Variable merkle_hash : Root -> Root -> Root.
Variable cls : OptionalCls V Raw.
(** [cls.element_cls().__name__] and [repr(value)] of a value of the
    element type. *)
Variable elem_name : string.
Variable elem_repr : V -> string.

(** [cls.type_repr()], lines 116-118 *)
Definition type_repr : string :=
  ("Optional[" ++ elem_name ++ "]")%string.

(** [self.__repr__()], lines 109-114 *)
Definition repr (self : OptionalView) : result string :=
  value <- get merkle_hash cls self ;;
  match value with
  | None => ret (type_repr ++ "(None)")%string
  | Some value =>
      ret (type_repr ++ "(Some(" ++ elem_repr value ++ "))")%string
  end.

End Repr.
End Optional.

(** ** Two element types

    [uint8], a basic type whose values are packed into chunks, and
    [Bitlist[8]], a composite type of variable byte length whose shortest
    encoding is one byte.  Both are valid arguments of
    [Optional.__class_getitem__]. *)

Module Elements.
Section Hashing.
Variable merkle_hash : Root -> Root -> Root.

(** *** uint8: values are bytes, raw inputs are integers *)

Fixpoint chunks_of (fuel : nat) (bs : list byte) : list Node :=
  match fuel, bs with
  | S fuel', _ :: _ =>
      RootNode (pad_chunk (firstn 32 bs)) :: chunks_of fuel' (skipn 32 bs)
  | _, _ => []
  end.

Definition splice_chunk (chunk : Root) (i size : Z) (bs : list byte) : Root :=
  firstn (Z.to_nat (i * size)) chunk ++ bs
    ++ skipn (Z.to_nat ((i + 1) * size)) chunk.

Definition uint8 : View.t byte Z :=
  {| View.is_basic_view := true;
     View.min_byte_length := 1;
     View.max_byte_length := 1;
     View.is_fixed_byte_length := true;
     View.type_byte_length := ret 1;
     View.coerce_view := fun r =>
       if (r <? 0) || (256 <=? r) then raise ValueError
       else ret (byte_of_Z r);
     View.get_backing := fun v => RootNode (pad_chunk [v]);
     View.view_from_backing := fun node =>
       ret (byte_of_Z (from_le_bytes
              (firstn 1 (Tree.merkle_root merkle_hash node))));
     View.pack_views := fun views => chunks_of (List.length views) views;
     View.basic_view_from_backing := fun chunk i =>
       ret (byte_of_Z (from_le_bytes
              (firstn 1 (skipn (Z.to_nat i)
                 (Tree.merkle_root merkle_hash chunk)))));
     View.backing_from_base := fun v chunk i =>
       RootNode (splice_chunk (Tree.merkle_root merkle_hash chunk) i 1 [v]);
     View.value_byte_length := fun _ => 1;
     View.serialize := fun v => [v];
     View.deserialize := fun stream scope =>
       if scope =? 1 then
         match stream with
         | b :: rest => ret (b, rest)
         | [] => raise (ElementError "short stream")
         end
       else raise (ElementError "scope")
  |}.

(** *** Bitlist[8]: values are lists of at most eight bits *)

Fixpoint bits_to_Z (bits : list bool) : Z :=
  match bits with
  | [] => 0
  | b :: rest => Z.b2z b + 2 * bits_to_Z rest
  end.

Fixpoint bits_of_Z (len : nat) (z : Z) : list bool :=
  match len with
  | O => []
  | S k => Z.odd z :: bits_of_Z k (z / 2)
  end.

Definition bitlist8 : View.t (list bool) (list bool) :=
  {| View.is_basic_view := false;
     View.min_byte_length := 1;
     View.max_byte_length := 2;
     View.is_fixed_byte_length := false;
     View.type_byte_length := raise (Exception "not a fixed-length type");
     View.coerce_view := fun r =>
       if Nat.leb (List.length r) 8 then ret r
       else raise (ElementError "too many bits");
     View.get_backing := fun v =>
       PairNode (RootNode (pad_chunk [byte_of_Z (bits_to_Z v)]))
                (Uint256.get_backing (Z.of_nat (List.length v)));
     View.view_from_backing := fun node =>
       contents <- Tree.get_left node ;;
       ll_node <- Tree.get_right node ;;
       let len := Uint256.view_from_backing merkle_hash ll_node in
       ret (bits_of_Z (Z.to_nat len)
              (from_le_bytes (firstn 1 (Tree.merkle_root merkle_hash contents))));
     View.pack_views := fun _ => [];
     View.basic_view_from_backing := fun _ _ =>
       raise (Exception "not a basic type");
     View.backing_from_base := fun _ chunk _ => chunk;
     View.value_byte_length := fun v => Z.of_nat (List.length v) / 8 + 1;
     View.serialize := fun v =>
       to_le_bytes (Nat.div (List.length v) 8 + 1) (bits_to_Z (v ++ [true]));
     View.deserialize := fun stream scope =>
       if (scope <? 1) || (2 <? scope) then raise (ElementError "scope")
       else if Z.of_nat (List.length stream) <? scope then
         raise (ElementError "short stream")
       else
         let z := from_le_bytes (firstn (Z.to_nat scope) stream) in
         if z <? 2 ^ (8 * (scope - 1)) then
           raise (ElementError "no delimiter bit")
         else
           ret (bits_of_Z (Z.to_nat (Z.log2 z)) z,
                skipn (Z.to_nat scope) stream)
  |}.

(** The two specializations, as [__class_getitem__] builds them. *)
Definition optional_uint8 : OptionalCls byte Z :=
  {| is_packed := true; contents_depth := 0;
     element_cls := uint8; limit := 1 |}.

Definition optional_bitlist8 : OptionalCls (list bool) (list bool) :=
  {| is_packed := false; contents_depth := 0;
     element_cls := bitlist8; limit := 1 |}.

End Hashing.

(** A stand-in for the pair hash in evaluated examples. *)
Definition toy_hash (a b : Root) : Root :=
  map (fun ab => byte_of_Z (Z_of_byte (fst ab) + 3 * Z_of_byte (snd ab) + 1))
      (combine a b).

Definition u8 : View.t byte Z := uint8 toy_hash.
Definition opt_u8 : OptionalCls byte Z := optional_uint8 toy_hash.
Definition bits8 : View.t (list bool) (list bool) := bitlist8 toy_hash.
Definition opt_bits8 : OptionalCls (list bool) (list bool) :=
  optional_bitlist8 toy_hash.

(** Example instances: [Optional[uint8](7)], [Optional[uint8](9)],
    [Optional[uint8]()] and [Optional[Bitlist[8]]] of the bits 1, 0, 1. *)
Definition some_seven : OptionalView :=
  {| backing := PairNode (RootNode (pad_chunk [x07])) (Uint256.get_backing 1) |}.

Definition some_nine : OptionalView :=
  {| backing := PairNode (RootNode (pad_chunk [x09])) (Uint256.get_backing 1) |}.

Definition none_uint8 : OptionalView :=
  {| backing := PairNode (RootNode ZERO_ROOT) (Uint256.get_backing 0) |}.

Definition some_bits : OptionalView :=
  {| backing := PairNode (View.get_backing bits8 [true; false; true])
                         (Uint256.get_backing 1) |}.

End Elements.

(** ** What the theorems assume of an element type, and reachable views *)

Module Contract.
Section Contract.
Context {V Raw : Type}.
Variable E : View.t V Raw.

(** The value [v] is read back from every place [Optional] stores it:
    for a basic type, from the chunk [pack_views] builds, from a chunk
    it is written into at offset 0 and from its own backing, the type
    occupying between 1 and 32 bytes; for any other type, from its
    backing. *)
Definition faithful (v : V) : Prop :=
  if View.is_basic_view E then
    (exists size, View.type_byte_length E = Ok size /\ 1 <= size <= 32) /\
    (exists chunk, View.pack_views E [v] = [chunk] /\
                   View.basic_view_from_backing E chunk 0 = Ok v) /\
    (forall chunk,
        View.basic_view_from_backing E
          (View.backing_from_base E v chunk 0) 0 = Ok v) /\
    View.basic_view_from_backing E (View.get_backing E v) 0 = Ok v
  else View.view_from_backing E (View.get_backing E v) = Ok v.

(** Packing no views yields no chunks. *)
Definition packs_nothing : Prop :=
  View.is_basic_view E = true -> View.pack_views E [] = [].

(** The serialized form of [v] is read back from the front of a stream
    when the scope is its length, and it is at least as long as the
    type's shortest encoding, which is not negative. *)
Definition framed (v : V) (rest : list byte) : Prop :=
  let written := View.serialize E v in
  0 <= View.min_byte_length E <= Z.of_nat (List.length written) /\
  View.deserialize E (written ++ rest) (Z.of_nat (List.length written))
    = Ok (v, rest).

(** Every value serializes to a number of bytes between the type's
    shortest and longest encoding, neither of which is negative. *)
Definition sized : Prop :=
  0 <= View.min_byte_length E <= View.max_byte_length E /\
  forall v : V,
    View.min_byte_length E <= Z.of_nat (List.length (View.serialize E v))
    <= View.max_byte_length E.

(** The fixed byte length of the type is the number of bytes every value
    serializes to. *)
Definition fixed_size : Prop :=
  forall v : V,
    View.type_byte_length E
    = Ok (Z.of_nat (List.length (View.serialize E v))).
End Contract.
End Contract.

(** The class [__class_getitem__] returns for an element type it accepts. *)
Definition special_option_view {V Raw : Type} (E : View.t V Raw)
  : OptionalCls V Raw :=
  {| is_packed := View.is_basic_view E; contents_depth := 0;
     element_cls := E; limit := 1 |}.

(** The views a program can hold without handing [Optional] a raw backing:
    those built from a value (or from none) and those a successful [set]
    leaves behind.  A [set] that raises leaves the view as it was. *)
Inductive reachable {V Raw : Type} (merkle_hash : Root -> Root -> Root)
  (ns : Optional.Namespace V) (cls : OptionalCls V Raw) : OptionalView -> Prop :=
| reach_new : forall value x,
    Optional.new merkle_hash cls value None = Ok x ->
    reachable merkle_hash ns cls x
| reach_set : forall x v x',
    reachable merkle_hash ns cls x ->
    Optional.set merkle_hash ns cls x v = Ok x' ->
    reachable merkle_hash ns cls x'.

(** * Theorems *)

Unset Implicit Arguments.

(** ** The tree and the length mix-in *)

Lemma bind_ok {A B : Type} (m : result A) (k : A -> result B) (b : B) :
  bind m k = Ok b -> exists a, m = Ok a /\ k a = Ok b.
Proof.
  destruct m as [a | e]; cbn; intros H; [| discriminate]. now exists a.
Qed.

Lemma uint256_new_inv (n m : Z) : Uint256.new n = Ok m -> m = n.
Proof.
  unfold Uint256.new.
  destruct ((n <? 0) || (2 ^ 256 <=? n)); cbn; intros H;
    [discriminate | now injection H].
Qed.

(** The guard of the summarization loop holds at even targets other than 2. *)
Lemma walk_guard_true (target : Z) :
  Optional.walk_guard target = true -> target mod 2 = 0 /\ target <> 2.
Proof.
  unfold Optional.walk_guard. intros H.
  apply andb_prop in H as [Hland Hne].
  apply Z.eqb_eq in Hland. apply negb_true_iff, Z.eqb_neq in Hne.
  split; [| exact Hne].
  change 1 with (Z.ones 1) in Hland.
  rewrite Z.land_ones in Hland by lia. exact Hland.
Qed.

(** The loop ends from every target other than 0 once the fuel covers the
    target's magnitude: each round halves an even target. *)
Lemma summarize_walk_fuel (fuel : nat) :
  forall (target : Z) (runs : nat),
    target <> 0 -> Z.abs target <= Z.of_nat fuel ->
    exists t n, Optional.summarize_walk fuel target runs = Ok (t, n).
Proof.
  induction fuel as [| fuel IH]; intros target runs Hne Hfuel; [lia |].
  cbn [Optional.summarize_walk].
  destruct (Optional.walk_guard target) eqn:Hguard.
  - apply walk_guard_true in Hguard as [Heven _].
    rewrite Z.shiftr_div_pow2 by lia. change (2 ^ 1) with 2.
    pose proof (Z.div_mod target 2 ltac:(lia)) as Hdiv.
    apply IH; lia.
  - now exists target, runs.
Qed.

Section Facts.
Context {V Raw : Type}.
Variable merkle_hash : Root -> Root -> Root.

Lemma decode_zero :
  Uint256.view_from_backing merkle_hash (Uint256.get_backing 0) = 0.
Proof. reflexivity. Qed.

Lemma decode_one :
  Uint256.view_from_backing merkle_hash (Uint256.get_backing 1) = 1.
Proof. reflexivity. Qed.

Lemma length_pair (l r : Node) :
  Optional.length merkle_hash {| backing := PairNode l r |}
  = Ok (Uint256.view_from_backing merkle_hash r).
Proof. reflexivity. Qed.

(** A view whose length can be read is backed by a pair. *)
Lemma length_inv (x : OptionalView) (n : Z) :
  Optional.length merkle_hash x = Ok n ->
  exists l r, x = {| backing := PairNode l r |}
              /\ Uint256.view_from_backing merkle_hash r = n.
Proof.
  destruct x as [[root | l r]]; cbn; intros H; [discriminate |].
  injection H as <-. now exists l, r.
Qed.

(** A specialization is the record [__class_getitem__] builds. *)
Lemma class_getitem_inv (E : View.t V Raw) (cls : OptionalCls V Raw) :
  Optional.class_getitem E = Ok cls ->
  View.min_byte_length E <> 0 /\ cls = special_option_view E.
Proof.
  unfold Optional.class_getitem.
  destruct (Z.eqb_spec (View.min_byte_length E) 0) as [Hz | Hz]; cbn; intros H.
  - discriminate.
  - injection H as <-. split; [exact Hz | reflexivity].
Qed.

Lemma class_getitem_ok (E : View.t V Raw) :
  View.min_byte_length E <> 0 ->
  Optional.class_getitem E = Ok (special_option_view E).
Proof.
  intros Hz. unfold Optional.class_getitem.
  destruct (Z.eqb_spec (View.min_byte_length E) 0); [contradiction | reflexivity].
Qed.

Section Element.
Variable E : View.t V Raw.

Lemma chunk_arith (size : Z) :
  1 <= size <= 32 ->
  floordiv 32 size = Ok (32 / size) /\
  floordiv 0 (32 / size) = Ok 0 /\ pymod 0 (32 / size) = Ok 0.
Proof.
  intros Hs. unfold floordiv, pymod.
  assert (Hq : 1 <= 32 / size).
  { apply Z.div_le_lower_bound; lia. }
  destruct (Z.eqb_spec size 0); [lia |].
  destruct (Z.eqb_spec (32 / size) 0); [lia |].
  repeat split.
Qed.

(** Reading slot 0 of a pair-backed view of the specialization: the
    contents child, decoded as the element type prescribes. *)
Lemma get_slot (l r : Node) :
  MonoSubtreeView.get (special_option_view E) 1
    {| backing := PairNode l r |} 0
  = if View.is_basic_view E then
      size <- View.type_byte_length E ;;
      elems_per_chunk <- floordiv 32 size ;;
      chunk_i <- floordiv 0 elems_per_chunk ;;
      target <- Tree.to_gindex chunk_i 1 ;;
      chunk <- Tree.getter (PairNode l r) target ;;
      offset <- pymod 0 elems_per_chunk ;;
      View.basic_view_from_backing E chunk offset
    else View.view_from_backing E l.
Proof.
  unfold MonoSubtreeView.get; cbn.
  destruct (View.is_basic_view E); reflexivity.
Qed.

Lemma get_slot_packed (l r : Node) (size : Z) :
  View.is_basic_view E = true ->
  View.type_byte_length E = Ok size -> 1 <= size <= 32 ->
  MonoSubtreeView.get (special_option_view E) 1
    {| backing := PairNode l r |} 0
  = View.basic_view_from_backing E l 0.
Proof.
  intros Hb Hsize Hs. rewrite get_slot, Hb, Hsize.
  destruct (chunk_arith size Hs) as (H1 & H2 & H3).
  cbn. rewrite H1. cbn. rewrite H2. cbn. rewrite H3. reflexivity.
Qed.

End Element.

(** ** Construction and reading *)

Lemma get_present (cls : OptionalCls V Raw) (l r : Node) :
  Uint256.view_from_backing merkle_hash r = 1 ->
  Optional.get merkle_hash cls {| backing := PairNode l r |}
  = (v <- MonoSubtreeView.get cls (Optional.tree_depth cls)
            {| backing := PairNode l r |} 0 ;; ret (Some v)).
Proof.
  intros Hr. unfold Optional.get. rewrite length_pair, Hr. reflexivity.
Qed.

Lemma get_absent (cls : OptionalCls V Raw) (l r : Node) :
  Uint256.view_from_backing merkle_hash r = 0 ->
  Optional.get merkle_hash cls {| backing := PairNode l r |} = Ok None.
Proof.
  intros Hr. unfold Optional.get. rewrite length_pair, Hr. reflexivity.
Qed.

(** What [faithful] gives for the contents child written by each path. *)
Lemma read_back_new (E : View.t V Raw) (v : V) (r : Node) :
  Contract.faithful E v ->
  exists contents,
    MonoSubtreeView.views_into_chunks (special_option_view E) [v]
    = Ok [contents] /\
    MonoSubtreeView.get (special_option_view E) 1
      {| backing := PairNode contents r |} 0 = Ok v.
Proof.
  unfold Contract.faithful, MonoSubtreeView.views_into_chunks; cbn.
  destruct (View.is_basic_view E) eqn:Hb.
  - intros ((size & Hsize & Hs) & (chunk & Hpack & Hread) & _).
    exists chunk. rewrite Hpack. split; [reflexivity |].
    now rewrite (get_slot_packed E chunk r size Hb Hsize Hs).
  - intros Hread. eexists. split; [reflexivity |].
    now rewrite get_slot, Hb.
Qed.

Lemma read_back_backing (E : View.t V Raw) (v : V) (r : Node) :
  Contract.faithful E v ->
  MonoSubtreeView.get (special_option_view E) 1
    {| backing := PairNode (View.get_backing E v) r |} 0 = Ok v.
Proof.
  unfold Contract.faithful.
  destruct (View.is_basic_view E) eqn:Hb.
  - intros ((size & Hsize & Hs) & _ & _ & Hread).
    now rewrite (get_slot_packed E _ r size Hb Hsize Hs).
  - intros Hread. now rewrite get_slot, Hb.
Qed.

Lemma new_present (E : View.t V Raw) (v : V) :
  Contract.faithful E v ->
  exists x,
    Optional.new merkle_hash (special_option_view E) (Some (IView v)) None
    = Ok x /\
    Optional.get merkle_hash (special_option_view E) x = Ok (Some v).
Proof.
  intros Hv.
  destruct (read_back_new E v (Uint256.get_backing 1) Hv)
    as (contents & Hchunks & Hget).
  exists {| backing := PairNode contents (Uint256.get_backing 1) |}. split.
  - unfold Optional.new. cbn. cbn in Hchunks. rewrite Hchunks. reflexivity.
  - rewrite get_present by apply decode_one.
    cbn. cbn in Hget. rewrite Hget. reflexivity.
Qed.

(** C4: for every element type [T] that [__class_getitem__] accepts and
    every value [v] of [T] that is read back from its encoding, the
    instance constructed from [v] exists and its [get()] returns [v]. *)
Theorem new_get_roundtrip (E : View.t V Raw) (cls : OptionalCls V Raw) (v : V) :
  Optional.class_getitem E = Ok cls ->
  Contract.faithful E v ->
  exists x,
    Optional.new merkle_hash cls (Some (IView v)) None = Ok x /\
    Optional.get merkle_hash cls x = Ok (Some v).
Proof.
  intros Hcls Hv. apply class_getitem_inv in Hcls as [_ ->].
  now apply new_present.
Qed.

Lemma new_absent (E : View.t V Raw) :
  Contract.packs_nothing E ->
  Optional.new merkle_hash (special_option_view E) None None
  = Ok {| backing := PairNode (Tree.zero_node merkle_hash 0)
                              (Uint256.get_backing 0) |}.
Proof.
  intros Hp. unfold Optional.new, MonoSubtreeView.views_into_chunks. cbn.
  destruct (View.is_basic_view E) eqn:Hb; [rewrite (Hp Hb) |]; reflexivity.
Qed.

(** ** Serialization *)

(** C1: for a value [v] of an accepted element type, serializing the
    instance built from [v] writes the element's bytes and returns their
    number, and deserializing those bytes with that scope yields an
    instance whose [get()] is [v]; deserializing with scope 0 yields the
    absent instance and leaves the stream as it was. *)
Theorem serialize_deserialize_roundtrip
    (E : View.t V Raw) (cls : OptionalCls V Raw) (v : V) (rest : list byte) :
  Optional.class_getitem E = Ok cls ->
  Contract.faithful E v ->
  Contract.framed E v rest ->
  Contract.packs_nothing E ->
  (exists x y,
      Optional.new merkle_hash cls (Some (IView v)) None = Ok x /\
      Optional.serialize merkle_hash cls x []
      = Ok (Z.of_nat (List.length (View.serialize E v)), View.serialize E v) /\
      Optional.deserialize merkle_hash cls (View.serialize E v ++ rest)
        (Z.of_nat (List.length (View.serialize E v))) = Ok (y, rest) /\
      Optional.get merkle_hash cls y = Ok (Some v)) /\
  (forall stream, exists y,
      Optional.deserialize merkle_hash cls stream 0 = Ok (y, stream) /\
      Optional.get merkle_hash cls y = Ok None).
Proof.
  intros Hcls Hv [Hmin Hread] Hnone.
  apply class_getitem_inv in Hcls as [Hguard ->].
  destruct (new_present E v Hv) as (x & Hnew & Hget).
  split.
  - exists x, x. repeat split; trivial.
    + unfold Optional.serialize. rewrite Hget. reflexivity.
    + unfold Optional.deserialize.
      destruct (Z.eqb_spec (Z.of_nat (List.length (View.serialize E v))) 0)
        as [Hzero | _]; [lia |].
      cbn [element_cls special_option_view]. rewrite Hread. cbn.
      cbn in Hnew. rewrite Hnew. reflexivity.
  - intros stream. eexists. split.
    + unfold Optional.deserialize. cbn [Z.eqb].
      rewrite (new_absent E Hnone). reflexivity.
    + apply get_absent, decode_zero.
Qed.

(** ** Mutation *)

(** C7: [set(None)] on an instance whose length is already 0 returns at
    once and leaves the instance, and so its backing root, as it was. *)
Theorem set_absent_idempotent
    (ns : Optional.Namespace V) (cls : OptionalCls V Raw) (x : OptionalView) :
  Optional.length merkle_hash x = Ok 0 ->
  Optional.set merkle_hash ns cls x None = Ok x.
Proof.
  intros Hlen. unfold Optional.set. rewrite Hlen. reflexivity.
Qed.

(** ** Navigation *)

(** C9, as amended: [navigate_type] succeeds only for key 0, for which it
    yields the element type; every other integer key raises the
    out-of-range [KeyError], the keys from 1 up by the container's own
    guard (the limit is 1) and the negative ones by the parent's; a name
    as key, the pseudo-key ['__is_some__'] included, raises [TypeError]
    at the comparison with the limit instead. *)
Theorem navigate_type_only_zero
    (E : View.t V Raw) (cls : OptionalCls V Raw) (key : Key) :
  Optional.class_getitem E = Ok cls ->
  Optional.navigate_type cls key
  = match key with
    | KInt k => if k =? 0 then Ok E else Err KeyError
    | KStr _ => Err TypeError
    end.
Proof.
  intros Hcls. apply class_getitem_inv in Hcls as [_ ->].
  destruct key as [k | s]; [| reflexivity].
  unfold Optional.navigate_type, MonoSubtreeView.navigate_type. cbn.
  destruct (Z.leb_spec 1 k); cbn.
  - destruct (Z.eqb_spec k 0); [lia | reflexivity].
  - destruct (Z.ltb_spec k 0); destruct (Z.eqb_spec k 0); try lia; reflexivity.
Qed.

(** A name as key is compared with the limit, which raises [TypeError]. *)
Lemma navigate_type_name (cls : OptionalCls V Raw) (s : string) :
  Optional.navigate_type cls (KStr s) = Err TypeError.
Proof. reflexivity. Qed.

(** C8: in the module as written, resolving the pseudo-key
    ['__is_some__'] raises [NameError]: the name [RIGHT_GINDEX] that the
    first branch of [key_to_static_gindex] returns is bound nowhere. *)
Theorem is_some_key_unbound (cls : OptionalCls V Raw) :
  Optional.key_to_static_gindex (Optional.as_written V) cls (KStr "__is_some__")
  = Err (NameError "RIGHT_GINDEX").
Proof. reflexivity. Qed.

(** With [RIGHT_GINDEX] imported the pseudo-key resolves to generalized
    index 3, the right child of the root, whatever the class. *)
Theorem is_some_key_with_import (cls : OptionalCls V Raw) :
  Optional.key_to_static_gindex (Optional.with_tree_imports V) cls
    (KStr "__is_some__") = Ok 3.
Proof. reflexivity. Qed.

(** ** Byte lengths *)

(** C3: in the module as written, [value_byte_length()] returns 0 for an
    absent instance and the element type's fixed byte length for a present
    one of a fixed-length type; for a present instance of any other type
    it raises [NameError], the variable [el] being bound nowhere. *)
Theorem value_byte_length_cases
    (cls : OptionalCls V Raw) (x : OptionalView) (len : Z) :
  Optional.length merkle_hash x = Ok len ->
  Optional.value_byte_length merkle_hash (Optional.as_written V) cls x
  = if len =? 0 then Ok 0
    else if View.is_fixed_byte_length (element_cls cls)
         then View.type_byte_length (element_cls cls)
         else Err (NameError "el").
Proof.
  intros Hlen. unfold Optional.value_byte_length. rewrite Hlen. cbn.
  destruct (len =? 0); [reflexivity |].
  destruct (View.is_fixed_byte_length (element_cls cls)); reflexivity.
Qed.

(** Writing slot 0 of a pair-backed view through the parent's [set]
    replaces the contents child and keeps the length child. *)
Lemma set_slot_keeps_right
    (E : View.t V Raw) (l r : Node) (v : Input V Raw) (x' : OptionalView) :
  MonoSubtreeView.set merkle_hash (special_option_view E) 1
    {| backing := PairNode l r |} 0 v = Ok x' ->
  exists l', x' = {| backing := PairNode l' r |}.
Proof.
  unfold MonoSubtreeView.set. cbn.
  destruct (match v with IView v0 => Ok v0 | IRaw r0 => View.coerce_view E r0 end)
    as [w | e]; [| discriminate].
  destruct (View.is_basic_view E).
  - destruct (View.type_byte_length E) as [size | e]; [| discriminate]. cbn.
    unfold floordiv, pymod.
    destruct (size =? 0); [discriminate |]. cbn.
    destruct (32 / size =? 0); [discriminate |]. cbn.
    intros H. injection H as <-. eexists. reflexivity.
  - intros H. injection H as <-. eexists. reflexivity.
Qed.

Lemma set_slot (E : View.t V Raw) (l r : Node) (v : V) :
  Contract.faithful E v ->
  exists l',
    MonoSubtreeView.set merkle_hash (special_option_view E) 1
      {| backing := PairNode l r |} 0 (IView v)
    = Ok {| backing := PairNode l' r |} /\
    MonoSubtreeView.get (special_option_view E) 1
      {| backing := PairNode l' r |} 0 = Ok v.
Proof.
  unfold Contract.faithful, MonoSubtreeView.set. cbn.
  destruct (View.is_basic_view E) eqn:Hb.
  - intros ((size & Hsize & Hs) & _ & Hwrite & _).
    destruct (chunk_arith size Hs) as (H1 & H2 & H3).
    rewrite Hsize. cbn. rewrite H1. cbn. rewrite H2. cbn. rewrite H3. cbn.
    eexists. split; [reflexivity |].
    rewrite (get_slot_packed E _ r size Hb Hsize Hs). apply Hwrite.
  - intros Hread. eexists. split; [reflexivity |].
    now rewrite get_slot, Hb.
Qed.

(** C6: on an instance of length 1, [set(v2)] succeeds, leaves the length
    at 1, makes [get()] return [v2], and leaves the length child of the
    backing the node it was. *)
Theorem overwrite_in_place
    (ns : Optional.Namespace V) (E : View.t V Raw) (cls : OptionalCls V Raw)
    (x : OptionalView) (v2 : V) :
  Optional.class_getitem E = Ok cls ->
  Contract.faithful E v2 ->
  Optional.length merkle_hash x = Ok 1 ->
  exists x',
    Optional.set merkle_hash ns cls x (Some (IView v2)) = Ok x' /\
    Optional.length merkle_hash x' = Ok 1 /\
    Optional.get merkle_hash cls x' = Ok (Some v2) /\
    Tree.get_right (backing x') = Tree.get_right (backing x).
Proof.
  intros Hcls Hv Hlen. apply class_getitem_inv in Hcls as [_ ->].
  destruct (length_inv x 1 Hlen) as (l & r & -> & Hr).
  destruct (set_slot E l r v2 Hv) as (l' & Hset & Hget).
  exists {| backing := PairNode l' r |}. repeat split.
  - unfold Optional.set. rewrite Hlen. exact Hset.
  - now rewrite length_pair, Hr.
  - rewrite (get_present _ l' r Hr). cbn. cbn in Hget. now rewrite Hget.
Qed.

(** ** The length invariant *)

(** A freshly constructed view is a pair whose length child holds the
    number of values it was given. *)
Lemma new_shape (cls : OptionalCls V Raw) (value : option (Input V Raw))
    (x : OptionalView) :
  Optional.new merkle_hash cls value None = Ok x ->
  exists l,
    x = {| backing := PairNode l
             (Uint256.get_backing (match value with Some _ => 1 | None => 0 end)) |}.
Proof.
  unfold Optional.new. intros H.
  apply bind_ok in H as (_ & _ & H).
  apply bind_ok in H as (views & Hviews & H).
  apply bind_ok in H as (nodes & _ & H).
  apply bind_ok in H as (contents & _ & H).
  apply bind_ok in H as (len & Hlen & H).
  apply uint256_new_inv in Hlen. cbn in H. injection H as <-.
  exists contents. subst len.
  destruct value as [[v | r] |]; cbn in Hviews.
  - now injection Hviews as <-.
  - apply bind_ok in Hviews as (v & _ & Hviews). now injection Hviews as <-.
  - now injection Hviews as <-.
Qed.

Lemma set_commit_shape (x : OptionalView) (nb nl : Node) (x' : OptionalView) :
  Optional.set_commit x nb nl = Ok x' ->
  exists l, x' = {| backing := PairNode l nl |}.
Proof.
  unfold Optional.set_commit.
  destruct nb as [root | l r]; cbn; intros H; [discriminate |].
  injection H as <-. now exists l.
Qed.

Lemma set_clear_length (ns : Optional.Namespace V) (cls : OptionalCls V Raw)
    (x : OptionalView) (cleared : Node * Node * nat) :
  Optional.set_clear merkle_hash ns cls x = Ok cleared ->
  snd (fst cleared) = Uint256.get_backing 0.
Proof.
  unfold Optional.set_clear. intros H.
  apply bind_ok in H as (to_g & _ & H).
  apply bind_ok in H as (target & _ & H).
  apply bind_ok in H as (set_last & _ & H).
  apply bind_ok in H as (summarized & _ & H).
  apply bind_ok in H as (len & Hlen & H).
  apply uint256_new_inv in Hlen. subst len. cbn in H. now injection H as <-.
Qed.

Lemma set_fill_length (ns : Optional.Namespace V) (cls : OptionalCls V Raw)
    (x : OptionalView) (v : Input V Raw) (filled : Node * Node) :
  Optional.set_fill merkle_hash ns cls x v = Ok filled ->
  snd filled = Uint256.get_backing 1.
Proof.
  unfold Optional.set_fill. intros H.
  apply bind_ok in H as (w & _ & H).
  apply bind_ok in H as (to_g & _ & H).
  apply bind_ok in H as (target & _ & H).
  apply bind_ok in H as (set_last & _ & H).
  apply bind_ok in H as (len & Hlen & H).
  apply uint256_new_inv in Hlen. subst len. cbn in H. now injection H as <-.
Qed.

(** [set] on a pair-backed view, by argument. *)
Lemma set_some_pair (ns : Optional.Namespace V) (cls : OptionalCls V Raw)
    (l r : Node) (v : Input V Raw) :
  Optional.set merkle_hash ns cls {| backing := PairNode l r |} (Some v)
  = if Uint256.view_from_backing merkle_hash r =? 1 then
      MonoSubtreeView.set merkle_hash cls (Optional.tree_depth cls)
        {| backing := PairNode l r |} 0 v
    else
      filled <- Optional.set_fill merkle_hash ns cls
                  {| backing := PairNode l r |} v ;;
      Optional.set_commit {| backing := PairNode l r |}
        (fst filled) (snd filled).
Proof. reflexivity. Qed.

Lemma set_none_pair (ns : Optional.Namespace V) (cls : OptionalCls V Raw)
    (l r : Node) :
  Optional.set merkle_hash ns cls {| backing := PairNode l r |} None
  = if Uint256.view_from_backing merkle_hash r =? 0 then
      Ok {| backing := PairNode l r |}
    else
      cleared <- Optional.set_clear merkle_hash ns cls
                   {| backing := PairNode l r |} ;;
      Optional.set_commit {| backing := PairNode l r |}
        (fst (fst cleared)) (snd (fst cleared)).
Proof. reflexivity. Qed.

(** The shape every reachable view has: a pair whose length child is the
    chunk of 0 or of 1. *)
Lemma reachable_shape (ns : Optional.Namespace V) (E : View.t V Raw)
    (x : OptionalView) :
  reachable merkle_hash ns (special_option_view E) x ->
  exists l r, x = {| backing := PairNode l r |} /\
              (r = Uint256.get_backing 0 \/ r = Uint256.get_backing 1).
Proof.
  induction 1 as [value x Hnew | x v x' _ IH Hset].
  - apply new_shape in Hnew as (l & ->).
    exists l, (Uint256.get_backing (match value with Some _ => 1 | None => 0 end)).
    split; [reflexivity |]. destruct value; auto.
  - destruct IH as (l & r & -> & Hr).
    destruct v as [v |];
      [rewrite set_some_pair in Hset | rewrite set_none_pair in Hset].
    + destruct (Uint256.view_from_backing merkle_hash r =? 1).
      * apply set_slot_keeps_right in Hset as (l' & ->). now exists l', r.
      * apply bind_ok in Hset as (filled & Hfill & Hset).
        apply set_fill_length in Hfill.
        apply set_commit_shape in Hset as (l' & ->).
        exists l', (snd filled). auto.
    + destruct (Uint256.view_from_backing merkle_hash r =? 0).
      * injection Hset as <-. now exists l, r.
      * apply bind_ok in Hset as (cleared & Hclear & Hset).
        apply set_clear_length in Hclear.
        apply set_commit_shape in Hset as (l' & ->).
        exists l', (snd (fst cleared)). auto.
Qed.

(** C5: every instance built from a value (or from none) and taken through
    any sequence of [set] calls has a length child that decodes to 0 or
    to 1, whichever names the module binds. *)
Theorem length_is_zero_or_one
    (ns : Optional.Namespace V) (E : View.t V Raw) (cls : OptionalCls V Raw)
    (x : OptionalView) :
  Optional.class_getitem E = Ok cls ->
  reachable merkle_hash ns cls x ->
  Optional.length merkle_hash x = Ok 0 \/ Optional.length merkle_hash x = Ok 1.
Proof.
  intros Hcls Hx. apply class_getitem_inv in Hcls as [_ ->].
  apply reachable_shape in Hx as (l & r & -> & [-> | ->]);
    rewrite length_pair; [left | right]; reflexivity.
Qed.

(** ** The clearing branch *)

Lemma set_clear_with_import (E : View.t V Raw) (l r : Node) :
  Optional.set_clear merkle_hash (Optional.with_tree_imports V)
    (special_option_view E) {| backing := PairNode l r |}
  = Ok (PairNode (Tree.zero_node merkle_hash 0) r,
        Uint256.get_backing 0, 0%nat).
Proof. reflexivity. Qed.

Lemma set_fill_with_import (E : View.t V Raw) (l r : Node) (v : V) :
  Optional.set_fill merkle_hash (Optional.with_tree_imports V)
    (special_option_view E) {| backing := PairNode l r |} (IView v)
  = Ok (PairNode (View.get_backing E v) r, Uint256.get_backing 1).
Proof. reflexivity. Qed.

(** C10: for a specialization the position [set] replaces when clearing
    is generalized index 2, at which the guard of the summarization loop
    is false; so whenever the clearing branch runs to its end, with
    [to_gindex] unbound or bound to the tree module's function, the body
    of the loop has run zero times, and with the function bound the branch
    does run to its end on every pair-backed instance. *)
Theorem summarize_loop_never_runs (E : View.t V Raw) (cls : OptionalCls V Raw) :
  Optional.class_getitem E = Ok cls ->
  Tree.to_gindex 0 (Optional.tree_depth cls) = Ok 2 /\
  Optional.walk_guard 2 = false /\
  (forall (ns : Optional.Namespace V) x cleared,
      (forall f, Optional.ns_to_gindex ns = Some f -> f = Tree.to_gindex) ->
      Optional.set_clear merkle_hash ns cls x = Ok cleared ->
      snd cleared = 0%nat) /\
  (forall l r, exists next_backing new_length,
      Optional.set_clear merkle_hash (Optional.with_tree_imports V) cls
        {| backing := PairNode l r |}
      = Ok (next_backing, new_length, 0%nat)).
Proof.
  intros Hcls. apply class_getitem_inv in Hcls as [_ ->].
  repeat split.
  - intros [[f |] right_gindex el] x cleared Hns H.
    + rewrite (Hns f eq_refl) in H.
      destruct x as [[root | l r]].
      * lazy in H. discriminate H.
      * change (Ok (PairNode (Tree.zero_node merkle_hash 0) r,
                    Uint256.get_backing 0, 0%nat) = Ok cleared) in H.
        now injection H as <-.
    + lazy in H. discriminate H.
  - intros l r. do 2 eexists. apply set_clear_with_import.
Qed.

(** ** Clear, then set *)

(** C2: in the module as written, clearing and then setting never gets
    through: on an instance with a value [set(None)] raises [NameError]
    at [to_gindex], and on an absent instance [set(None)] returns at once
    and the [set(v)] that follows raises the same error. *)
Theorem clear_then_set_unbound_name
    (cls : OptionalCls V Raw) (x : OptionalView) (len : Z) :
  Optional.length merkle_hash x = Ok len ->
  (len <> 0 ->
   Optional.set merkle_hash (Optional.as_written V) cls x None
   = Err (NameError "to_gindex")) /\
  (len = 0 ->
   Optional.set merkle_hash (Optional.as_written V) cls x None = Ok x /\
   forall v : V,
     Optional.set merkle_hash (Optional.as_written V) cls x (Some (IView v))
     = Err (NameError "to_gindex")).
Proof.
  intros Hlen. unfold Optional.set. rewrite Hlen. cbn. split.
  - intros Hpos. destruct (Z.eqb_spec len 0); [contradiction | reflexivity].
  - intros ->. split; reflexivity.
Qed.

(** With [to_gindex] imported, clearing and then setting [v] succeeds from
    every state whose length can be read, and leaves an instance of
    length 1 whose [get()] is [v]. *)
Theorem clear_then_set_with_import
    (E : View.t V Raw) (cls : OptionalCls V Raw) (x : OptionalView)
    (len : Z) (v : V) :
  Optional.class_getitem E = Ok cls ->
  Contract.faithful E v ->
  Optional.length merkle_hash x = Ok len ->
  exists y z,
    Optional.set merkle_hash (Optional.with_tree_imports V) cls x None = Ok y /\
    Optional.set merkle_hash (Optional.with_tree_imports V) cls y
      (Some (IView v)) = Ok z /\
    Optional.length merkle_hash z = Ok 1 /\
    Optional.get merkle_hash cls z = Ok (Some v).
Proof.
  intros Hcls Hv Hlen. apply class_getitem_inv in Hcls as [_ ->].
  destruct (length_inv x len Hlen) as (l & r & -> & Hr).
  assert (Hclear : exists l' r',
             Optional.set merkle_hash (Optional.with_tree_imports V)
               (special_option_view E) {| backing := PairNode l r |} None
             = Ok {| backing := PairNode l' r' |}
             /\ Uint256.view_from_backing merkle_hash r' = 0).
  { rewrite set_none_pair.
    destruct (Z.eqb_spec (Uint256.view_from_backing merkle_hash r) 0) as [Hz | _].
    - now exists l, r.
    - rewrite set_clear_with_import. do 2 eexists. split; [reflexivity |].
      apply decode_zero. }
  destruct Hclear as (l' & r' & Hclear & Hr').
  exists {| backing := PairNode l' r' |},
         {| backing := PairNode (View.get_backing E v) (Uint256.get_backing 1) |}.
  repeat split.
  - exact Hclear.
  - rewrite set_some_pair, Hr', set_fill_with_import. reflexivity.
  - rewrite (get_present _ _ _ (decode_one)).
    change (Optional.tree_depth (special_option_view E)) with 1.
    now rewrite (read_back_backing E v _ Hv).
Qed.
(** ** Further properties of the container *)

(** Specialization: an element type whose shortest encoding is empty is
    turned down; any other yields the class with limit 1, a contents
    subtree of depth 0 under a tree of depth 1, packed exactly when the
    element type is basic. *)
Theorem class_getitem_guard (E : View.t V Raw) :
  (View.min_byte_length E = 0 ->
   Optional.class_getitem E = Err (Exception "Invalid option type")) /\
  (View.min_byte_length E <> 0 ->
   exists cls,
     Optional.class_getitem E = Ok cls /\
     limit cls = 1 /\ contents_depth cls = 0 /\ Optional.tree_depth cls = 1 /\
     is_packed cls = View.is_basic_view E /\ element_cls cls = E).
Proof.
  split.
  - intros Hz. unfold Optional.class_getitem. now rewrite Hz.
  - intros Hz. exists (special_option_view E).
    split; [now apply class_getitem_ok | repeat split].
Qed.

(** Construction from a backing adopts it unchanged, and construction from
    both a value and a backing raises. *)
Theorem new_from_backing (cls : OptionalCls V Raw) (b : Node) :
  Optional.new merkle_hash cls None (Some b) = Ok {| backing := b |} /\
  forall value : Input V Raw,
    Optional.new merkle_hash cls (Some value) (Some b)
    = Err (Exception "cannot have both a backing and a value to init Optional").
Proof. split; reflexivity. Qed.

(** Canonical absence: the instance built from no value has length 0, its
    [get()] is [None], its contents child is [zero_node(0)], and its
    backing is the class's [default_node()]. *)
Theorem new_absent_canonical (E : View.t V Raw) (cls : OptionalCls V Raw) :
  Optional.class_getitem E = Ok cls ->
  Contract.packs_nothing E ->
  exists x,
    Optional.new merkle_hash cls None None = Ok x /\
    Optional.length merkle_hash x = Ok 0 /\
    Optional.get merkle_hash cls x = Ok None /\
    Tree.get_left (backing x) = Ok (Tree.zero_node merkle_hash 0) /\
    backing x = Optional.default_node merkle_hash cls.
Proof.
  intros Hcls Hnone. apply class_getitem_inv in Hcls as [_ ->].
  eexists. split; [apply (new_absent E Hnone) |].
  split; [reflexivity |]. split; [apply get_absent, decode_zero |].
  split; reflexivity.
Qed.

(** An absent instance serializes to nothing: [serialize] returns 0 and
    leaves the stream as it was. *)
Theorem serialize_absent (cls : OptionalCls V Raw) (x : OptionalView)
    (stream : list byte) :
  Optional.length merkle_hash x = Ok 0 ->
  Optional.serialize merkle_hash cls x stream = Ok (0, stream).
Proof.
  intros Hlen. unfold Optional.serialize, Optional.get. now rewrite Hlen.
Qed.

(** With [to_gindex] imported, [set(v)] on an absent instance succeeds and
    leaves an instance of length 1 whose contents child is the backing of
    [v] and whose [get()] is [v]. *)
Theorem set_on_absent_with_import
    (E : View.t V Raw) (cls : OptionalCls V Raw) (x : OptionalView) (v : V) :
  Optional.class_getitem E = Ok cls ->
  Contract.faithful E v ->
  Optional.length merkle_hash x = Ok 0 ->
  exists z,
    Optional.set merkle_hash (Optional.with_tree_imports V) cls x
      (Some (IView v)) = Ok z /\
    Optional.length merkle_hash z = Ok 1 /\
    Tree.get_left (backing z) = Ok (View.get_backing E v) /\
    Optional.get merkle_hash cls z = Ok (Some v).
Proof.
  intros Hcls Hv Hlen. apply class_getitem_inv in Hcls as [_ ->].
  destruct (length_inv x 0 Hlen) as (l & r & -> & Hr).
  exists {| backing := PairNode (View.get_backing E v) (Uint256.get_backing 1) |}.
  split; [| split; [| split]].
  - rewrite set_some_pair, Hr, set_fill_with_import. reflexivity.
  - reflexivity.
  - reflexivity.
  - rewrite (get_present _ _ _ (decode_one)).
    change (Optional.tree_depth (special_option_view E)) with 1.
    now rewrite (read_back_backing E v _ Hv).
Qed.

(** With [to_gindex] imported, [set(None)] on an instance whose length is
    not 0 succeeds and leaves the class's [default_node()] as backing: a
    zero contents leaf and a zero length leaf. *)
Theorem set_none_with_import
    (E : View.t V Raw) (cls : OptionalCls V Raw) (x : OptionalView) (len : Z) :
  Optional.class_getitem E = Ok cls ->
  Optional.length merkle_hash x = Ok len ->
  len <> 0 ->
  Optional.set merkle_hash (Optional.with_tree_imports V) cls x None
  = Ok {| backing := Optional.default_node merkle_hash cls |}.
Proof.
  intros Hcls Hlen Hpos. apply class_getitem_inv in Hcls as [_ ->].
  destruct (length_inv x len Hlen) as (l & r & -> & Hr).
  rewrite set_none_pair, Hr.
  destruct (Z.eqb_spec len 0); [contradiction |].
  now rewrite set_clear_with_import.
Qed.

(** The summarization loop of [set] ends from every target other than 0
    with the fuel [set] gives it. *)
Theorem summarize_walk_terminates (target : Z) :
  target <> 0 ->
  exists t n,
    Optional.summarize_walk (Z.to_nat (Z.abs target)) target 0 = Ok (t, n).
Proof.
  intros Hne. apply summarize_walk_fuel; [exact Hne | lia].
Qed.


End Facts.

(** ** The theorems at the example instances *)

Import Elements.

Lemma uint8_accepted : Optional.class_getitem u8 = Ok opt_u8.
Proof. reflexivity. Qed.

Lemma bitlist8_accepted : Optional.class_getitem bits8 = Ok opt_bits8.
Proof. reflexivity. Qed.

Lemma uint8_faithful (b : byte) : Contract.faithful u8 b.
Proof.
  unfold Contract.faithful. cbn.
  repeat split.
  - exists 1. split; [reflexivity | lia].
  - eexists. split; [reflexivity |]. destruct b; reflexivity.
  - intros chunk. destruct b; reflexivity.
  - destruct b; reflexivity.
Qed.

Lemma uint8_framed (b : byte) (rest : list byte) : Contract.framed u8 b rest.
Proof. split; [cbn; lia | reflexivity]. Qed.

Lemma uint8_packs_nothing : Contract.packs_nothing u8.
Proof. intros _. reflexivity. Qed.

Lemma bits_faithful : Contract.faithful bits8 [true; false; true].
Proof. reflexivity. Qed.

Lemma bits_framed : Contract.framed bits8 [true; false; true] [x2a].
Proof. split; [cbn; lia | reflexivity]. Qed.

Lemma bits_packs_nothing : Contract.packs_nothing bits8.
Proof. intros H. discriminate H. Qed.

Lemma serialize_deserialize_roundtrip_witness :
  (exists x y,
      Optional.new toy_hash opt_bits8 (Some (IView [true; false; true])) None = Ok x /\
      Optional.serialize toy_hash opt_bits8 x [] = Ok (1, [x0d]) /\
      Optional.deserialize toy_hash opt_bits8 [x0d; x2a] 1 = Ok (y, [x2a]) /\
      Optional.get toy_hash opt_bits8 y = Ok (Some [true; false; true])) /\
  (forall stream, exists y,
      Optional.deserialize toy_hash opt_bits8 stream 0 = Ok (y, stream) /\
      Optional.get toy_hash opt_bits8 y = Ok None).
Proof.
  exact (serialize_deserialize_roundtrip toy_hash bits8 opt_bits8
           [true; false; true] [x2a]
           bitlist8_accepted bits_faithful bits_framed bits_packs_nothing).
Defined.

Lemma clear_then_set_unbound_name_witness :
  Optional.length toy_hash some_seven = Ok 1 /\
  Optional.set toy_hash (Optional.as_written byte) opt_u8 some_seven None
  = Err (NameError "to_gindex").
Proof.
  split; [reflexivity |].
  apply (clear_then_set_unbound_name toy_hash opt_u8 some_seven 1 eq_refl).
  lia.
Defined.

Lemma value_byte_length_cases_witness :
  Optional.length toy_hash some_bits = Ok 1 /\
  Optional.value_byte_length toy_hash (Optional.as_written (list bool))
    opt_bits8 some_bits = Err (NameError "el").
Proof.
  split; [reflexivity |].
  exact (value_byte_length_cases toy_hash opt_bits8 some_bits 1 eq_refl).
Defined.

Lemma new_get_roundtrip_witness :
  exists x,
    Optional.new toy_hash opt_u8 (Some (IView x07)) None = Ok x /\
    Optional.get toy_hash opt_u8 x = Ok (Some x07).
Proof.
  exact (new_get_roundtrip toy_hash u8 opt_u8 x07 uint8_accepted (uint8_faithful x07)).
Defined.

Lemma some_nine_reachable :
  reachable toy_hash (Optional.as_written byte) opt_u8 some_nine.
Proof.
  apply reach_set with (x := some_seven) (v := Some (IRaw 9)).
  - apply reach_new with (value := Some (IRaw 7)). reflexivity.
  - reflexivity.
Qed.

Lemma length_is_zero_or_one_witness :
  Optional.length toy_hash some_nine = Ok 0 \/
  Optional.length toy_hash some_nine = Ok 1.
Proof.
  exact (length_is_zero_or_one toy_hash (Optional.as_written byte) u8 opt_u8
           some_nine uint8_accepted some_nine_reachable).
Defined.

Lemma overwrite_in_place_witness :
  exists x',
    Optional.set toy_hash (Optional.as_written byte) opt_u8 some_seven
      (Some (IView x09)) = Ok x' /\
    Optional.length toy_hash x' = Ok 1 /\
    Optional.get toy_hash opt_u8 x' = Ok (Some x09) /\
    Tree.get_right (backing x') = Tree.get_right (backing some_seven).
Proof.
  exact (overwrite_in_place toy_hash (Optional.as_written byte) u8 opt_u8
           some_seven x09 uint8_accepted (uint8_faithful x09) eq_refl).
Defined.

Lemma set_absent_idempotent_witness :
  Optional.set toy_hash (Optional.as_written byte) opt_u8 none_uint8 None
  = Ok none_uint8.
Proof.
  exact (set_absent_idempotent toy_hash (Optional.as_written byte) opt_u8
           none_uint8 eq_refl).
Defined.

Lemma navigate_type_only_zero_witness :
  Optional.navigate_type opt_u8 (KInt 0) = Ok u8 /\
  Optional.navigate_type opt_u8 (KInt 1) = Err KeyError /\
  Optional.navigate_type opt_u8 (KInt (-1)) = Err KeyError /\
  Optional.navigate_type opt_u8 (KStr "__is_some__") = Err TypeError.
Proof.
  exact (conj (navigate_type_only_zero u8 opt_u8 (KInt 0) uint8_accepted)
          (conj (navigate_type_only_zero u8 opt_u8 (KInt 1) uint8_accepted)
             (conj (navigate_type_only_zero u8 opt_u8 (KInt (-1)) uint8_accepted)
                   (navigate_type_only_zero u8 opt_u8 (KStr "__is_some__")
                      uint8_accepted)))).
Defined.

(** C9 as first stated fails at a key other than 0: the pseudo-key is no
    integer, and [navigate_type] raises [TypeError] on it, not the
    out-of-range [KeyError]. *)
Lemma navigate_type_name_key_counterexample :
  exists key : Key,
    key <> KInt 0 /\
    Optional.navigate_type opt_u8 key = Err TypeError /\
    Optional.navigate_type opt_u8 key <> Err KeyError.
Proof.
  exists (KStr "__is_some__"). split; [discriminate |].
  split; [reflexivity |]. cbn. discriminate.
Qed.

Lemma summarize_loop_never_runs_witness :
  Tree.to_gindex 0 (Optional.tree_depth opt_u8) = Ok 2 /\
  Optional.walk_guard 2 = false /\
  exists next_backing new_length,
    Optional.set_clear toy_hash (Optional.with_tree_imports byte) opt_u8 some_seven
    = Ok (next_backing, new_length, 0%nat).
Proof.
  destruct (summarize_loop_never_runs toy_hash u8 opt_u8 uint8_accepted)
    as (Htarget & Hguard & _ & Hruns).
  exact (conj Htarget (conj Hguard
           (Hruns (RootNode (pad_chunk [x07])) (Uint256.get_backing 1)))).
Defined.

Lemma clear_then_set_with_import_witness :
  exists y z,
    Optional.set toy_hash (Optional.with_tree_imports byte) opt_u8 some_seven None
    = Ok y /\
    Optional.set toy_hash (Optional.with_tree_imports byte) opt_u8 y
      (Some (IView x09)) = Ok z /\
    Optional.length toy_hash z = Ok 1 /\
    Optional.get toy_hash opt_u8 z = Ok (Some x09).
Proof.
  exact (clear_then_set_with_import toy_hash u8 opt_u8 some_seven 1 x09
           uint8_accepted (uint8_faithful x09) eq_refl).
Defined.

Lemma new_absent_canonical_witness :
  exists x,
    Optional.new toy_hash opt_u8 None None = Ok x /\
    Optional.length toy_hash x = Ok 0 /\
    Optional.get toy_hash opt_u8 x = Ok None /\
    Tree.get_left (backing x) = Ok (Tree.zero_node toy_hash 0) /\
    backing x = Optional.default_node toy_hash opt_u8.
Proof.
  exact (new_absent_canonical toy_hash u8 opt_u8 uint8_accepted uint8_packs_nothing).
Defined.

Lemma serialize_absent_witness :
  Optional.serialize toy_hash opt_u8 none_uint8 [x2a] = Ok (0, [x2a]).
Proof.
  exact (serialize_absent toy_hash opt_u8 none_uint8 [x2a] eq_refl).
Defined.

Lemma set_on_absent_with_import_witness :
  exists z,
    Optional.set toy_hash (Optional.with_tree_imports (list bool)) opt_bits8
      {| backing := Optional.default_node toy_hash opt_bits8 |}
      (Some (IView [true; false; true])) = Ok z /\
    Optional.length toy_hash z = Ok 1 /\
    Tree.get_left (backing z) = Ok (View.get_backing bits8 [true; false; true]) /\
    Optional.get toy_hash opt_bits8 z = Ok (Some [true; false; true]).
Proof.
  exact (set_on_absent_with_import toy_hash bits8 opt_bits8
           {| backing := Optional.default_node toy_hash opt_bits8 |}
           [true; false; true] bitlist8_accepted bits_faithful eq_refl).
Defined.

Lemma set_none_with_import_witness :
  Optional.set toy_hash (Optional.with_tree_imports (list bool)) opt_bits8
    some_bits None
  = Ok {| backing := Optional.default_node toy_hash opt_bits8 |}.
Proof.
  apply (set_none_with_import toy_hash bits8 opt_bits8 some_bits 1
           bitlist8_accepted eq_refl).
  lia.
Defined.

Lemma summarize_walk_terminates_witness :
  exists t n, Optional.summarize_walk (Z.to_nat (Z.abs 8)) 8 0 = Ok (t, n).
Proof.
  apply (summarize_walk_terminates 8). lia.
Defined.

(** * Further coverage of [optional.py] *)

Section Coverage.
Context {V Raw : Type}.
Variable merkle_hash : Root -> Root -> Root.

(** ** Reading *)

(** [get()] returns [None] exactly when the length child decodes to 0: a
    length other than 0, also one that is not 1, is read as presence. *)
Theorem get_none_iff_length_zero (cls : OptionalCls V Raw) (x : OptionalView) :
  Optional.get merkle_hash cls x = Ok None <->
  Optional.length merkle_hash x = Ok 0.
Proof.
  unfold Optional.get. split.
  - destruct (Optional.length merkle_hash x) as [len | e]; cbn; [| discriminate].
    destruct (Z.eqb_spec len 0) as [-> | _]; [reflexivity |].
    destruct (MonoSubtreeView.get cls (Optional.tree_depth cls) x 0);
      cbn; discriminate.
  - intros ->. reflexivity.
Qed.

(** A view over a leaf, which construction from a backing accepts without
    validation, fails with [NavigationError] at its first use, whatever
    the operation. *)
Theorem leaf_backing_fails
    (ns : Optional.Namespace V) (cls : OptionalCls V Raw) (root : Root)
    (v : option (Input V Raw)) (stream : list byte) :
  let x := {| backing := RootNode root |} in
  Optional.new merkle_hash cls None (Some (RootNode root)) = Ok x /\
  Optional.length merkle_hash x = Err NavigationError /\
  Optional.get merkle_hash cls x = Err NavigationError /\
  Optional.set merkle_hash ns cls x v = Err NavigationError /\
  Optional.serialize merkle_hash cls x stream = Err NavigationError /\
  Optional.value_byte_length merkle_hash ns cls x = Err NavigationError.
Proof.
  cbv zeta. repeat split. destruct v; reflexivity.
Qed.

(** The view over [default_node()] is an absent instance: length 0, no
    value, nothing to serialize, byte length 0. *)
Theorem default_node_is_absent
    (ns : Optional.Namespace V) (cls : OptionalCls V Raw) (stream : list byte) :
  let x := Optional.backed_view_new merkle_hash cls None in
  backing x = Optional.default_node merkle_hash cls /\
  Optional.length merkle_hash x = Ok 0 /\
  Optional.get merkle_hash cls x = Ok None /\
  Optional.serialize merkle_hash cls x stream = Ok (0, stream) /\
  Optional.value_byte_length merkle_hash ns cls x = Ok 0.
Proof.
  cbv zeta. repeat split.
Qed.

(** ** Mutation *)

(** Whatever the state before, a [set] that returns leaves the length at 1
    when given a value and at 0 when given [None], and in the latter case
    [get()] is [None]. *)
Theorem set_fixes_length
    (ns : Optional.Namespace V) (E : View.t V Raw) (cls : OptionalCls V Raw)
    (x x' : OptionalView) (v : option (Input V Raw)) :
  Optional.class_getitem E = Ok cls ->
  Optional.set merkle_hash ns cls x v = Ok x' ->
  Optional.length merkle_hash x'
  = Ok (match v with Some _ => 1 | None => 0 end) /\
  (v = None -> Optional.get merkle_hash cls x' = Ok None).
Proof.
  intros Hcls Hset. apply class_getitem_inv in Hcls as [_ ->].
  assert (Hlen : Optional.length merkle_hash x'
                 = Ok (match v with Some _ => 1 | None => 0 end)).
  { assert (Hx : exists len, Optional.length merkle_hash x = Ok len).
    { unfold Optional.set in Hset.
      destruct v; apply bind_ok in Hset as (len & Hlen & _); now exists len. }
    destruct Hx as (len & Hx).
    destruct (length_inv merkle_hash x len Hx) as (l & r & -> & Hr).
    destruct v as [v |];
      [rewrite set_some_pair in Hset | rewrite set_none_pair in Hset];
      rewrite Hr in Hset.
    - destruct (Z.eqb_spec len 1) as [Hone | _].
      + apply set_slot_keeps_right in Hset as (l' & ->).
        now rewrite length_pair, Hr, Hone.
      + apply bind_ok in Hset as (filled & Hfill & Hset).
        apply set_fill_length in Hfill.
        apply set_commit_shape in Hset as (l' & ->).
        now rewrite length_pair, Hfill.
    - destruct (Z.eqb_spec len 0) as [Hzero | _].
      + injection Hset as <-. now rewrite length_pair, Hr, Hzero.
      + apply bind_ok in Hset as (cleared & Hclear & Hset).
        apply set_clear_length in Hclear.
        apply set_commit_shape in Hset as (l' & ->).
        now rewrite length_pair, Hclear. }
  split; [exact Hlen |].
  intros ->. now apply get_none_iff_length_zero.
Qed.

(** A raw input is coerced first, in construction and in [set]: where the
    coercion succeeds the call behaves as on the coerced view, and where
    it fails the call raises the coercion's error, in every state whose
    length can be read and before any other name is looked up. *)
Theorem raw_input_is_coerced
    (ns : Optional.Namespace V) (E : View.t V Raw) (cls : OptionalCls V Raw)
    (r : Raw) :
  Optional.class_getitem E = Ok cls ->
  (forall v, View.coerce_view E r = Ok v ->
     Optional.new merkle_hash cls (Some (IRaw r)) None
     = Optional.new merkle_hash cls (Some (IView v)) None /\
     forall x, Optional.set merkle_hash ns cls x (Some (IRaw r))
               = Optional.set merkle_hash ns cls x (Some (IView v))) /\
  (forall e, View.coerce_view E r = Err e ->
     Optional.new merkle_hash cls (Some (IRaw r)) None = Err e /\
     forall x len, Optional.length merkle_hash x = Ok len ->
                   Optional.set merkle_hash ns cls x (Some (IRaw r)) = Err e).
Proof.
  intros Hcls. apply class_getitem_inv in Hcls as [_ ->]. split.
  - intros v Hv. split.
    + unfold Optional.new. cbn. now rewrite Hv.
    + intros x. unfold Optional.set, Optional.set_fill, MonoSubtreeView.set.
      cbn. now rewrite Hv.
  - intros e He. split.
    + unfold Optional.new. cbn. now rewrite He.
    + intros x len Hlen.
      unfold Optional.set, Optional.set_fill, MonoSubtreeView.set.
      rewrite Hlen. cbn. rewrite He. cbn. now destruct (len =? 1).
Qed.

(** With [to_gindex] imported, [set(v)] succeeds from every state whose
    length can be read, present, absent or malformed, and leaves an
    instance of length 1 whose [get()] is [v]. *)
Theorem set_then_get_with_import
    (E : View.t V Raw) (cls : OptionalCls V Raw) (x : OptionalView)
    (len : Z) (v : V) :
  Optional.class_getitem E = Ok cls ->
  Contract.faithful E v ->
  Optional.length merkle_hash x = Ok len ->
  exists z,
    Optional.set merkle_hash (Optional.with_tree_imports V) cls x
      (Some (IView v)) = Ok z /\
    Optional.length merkle_hash z = Ok 1 /\
    Optional.get merkle_hash cls z = Ok (Some v).
Proof.
  intros Hcls Hv Hlen. apply class_getitem_inv in Hcls as [_ ->].
  destruct (length_inv merkle_hash x len Hlen) as (l & r & -> & Hr).
  destruct (Z.eq_dec len 1) as [Hone | Hne].
  - destruct (set_slot merkle_hash E l r v Hv) as (l' & Hset & Hget).
    exists {| backing := PairNode l' r |}. split; [| split].
    + rewrite set_some_pair, Hr, Hone. exact Hset.
    + now rewrite length_pair, Hr, Hone.
    + assert (Hr1 : Uint256.view_from_backing merkle_hash r = 1)
        by now rewrite Hr.
      rewrite (get_present merkle_hash _ l' r Hr1).
      change (Optional.tree_depth (special_option_view E)) with 1.
      now rewrite Hget.
  - exists {| backing := PairNode (View.get_backing E v) (Uint256.get_backing 1) |}.
    split; [| split].
    + rewrite set_some_pair, Hr, set_fill_with_import.
      destruct (Z.eqb_spec len 1); [contradiction | reflexivity].
    + reflexivity.
    + rewrite (get_present merkle_hash _ _ _ (decode_one merkle_hash)).
      change (Optional.tree_depth (special_option_view E)) with 1.
      now rewrite (read_back_backing E v _ Hv).
Qed.

(** ** Serialization *)

(** Presence on the wire is the scope alone: an instance that
    [deserialize] returns has length 0 when the scope is 0, with the stream
    untouched, and length 1 for every other scope. *)
Theorem deserialize_presence_by_scope
    (cls : OptionalCls V Raw) (stream rest : list byte) (scope : Z)
    (y : OptionalView) :
  Optional.deserialize merkle_hash cls stream scope = Ok (y, rest) ->
  Optional.length merkle_hash y = Ok (if scope =? 0 then 0 else 1) /\
  (scope = 0 -> rest = stream).
Proof.
  unfold Optional.deserialize. intros H.
  destruct (Z.eqb_spec scope 0) as [Hz | Hnz].
  - apply bind_ok in H as (x & Hnew & H). injection H as <- <-.
    apply new_shape in Hnew as (l & ->). now split.
  - apply bind_ok in H as (read & _ & H).
    apply bind_ok in H as (x & Hnew & H). injection H as <- <-.
    apply new_shape in Hnew as (l & ->). split; [reflexivity | contradiction].
Qed.

(** [serialize] only appends: the stream it leaves is the one it was given
    followed by as many bytes as it returns.  For an element type whose
    encodings stay within its declared lengths that number lies between
    the container's [min_byte_length()] and [max_byte_length()], and it is
    0 exactly for an absent instance. *)
Theorem serialize_size
    (E : View.t V Raw) (cls : OptionalCls V Raw) (x : OptionalView)
    (stream out : list byte) (n : Z) :
  Optional.class_getitem E = Ok cls ->
  Contract.sized E ->
  Optional.serialize merkle_hash cls x stream = Ok (n, out) ->
  exists written,
    out = stream ++ written /\
    n = Z.of_nat (List.length written) /\
    Optional.min_byte_length <= n <= Optional.max_byte_length cls /\
    (n = 0 <-> Optional.length merkle_hash x = Ok 0).
Proof.
  intros Hcls [Hrange Hsized] H.
  apply class_getitem_inv in Hcls as [Hguard ->].
  unfold Optional.serialize in H. apply bind_ok in H as (value & Hget & H).
  unfold Optional.min_byte_length, Optional.max_byte_length.
  cbn [element_cls special_option_view] in *.
  destruct value as [v |]; cbn in H; injection H as <- <-.
  - exists (View.serialize E v). specialize (Hsized v).
    repeat split; try lia.
    intros Hzero. apply get_none_iff_length_zero with (cls := special_option_view E) in Hzero.
    rewrite Hzero in Hget. discriminate Hget.
  - exists []. rewrite app_nil_r. repeat split; try (cbn; lia).
    intros _. now apply get_none_iff_length_zero in Hget.
Qed.

(** For a fixed-length element type, [value_byte_length()] is the number
    of bytes [serialize] writes. *)
Theorem value_byte_length_is_serialized_size
    (E : View.t V Raw) (cls : OptionalCls V Raw) (x : OptionalView)
    (stream out : list byte) (n : Z) :
  Optional.class_getitem E = Ok cls ->
  View.is_fixed_byte_length E = true ->
  Contract.fixed_size E ->
  Optional.serialize merkle_hash cls x stream = Ok (n, out) ->
  Optional.value_byte_length merkle_hash (Optional.as_written V) cls x = Ok n.
Proof.
  intros Hcls Hfixed Hsize H.
  apply class_getitem_inv in Hcls as [_ ->].
  unfold Optional.serialize in H. apply bind_ok in H as (value & Hget & H).
  unfold Optional.get in Hget. apply bind_ok in Hget as (len & Hlen & Hget).
  unfold Optional.value_byte_length. rewrite Hlen. cbn.
  destruct (len =? 0).
  - injection Hget as <-. cbn in H. now injection H as <- _.
  - apply bind_ok in Hget as (v & _ & Hget). injection Hget as <-.
    cbn in H. injection H as <- _. rewrite Hfixed. apply Hsize.
Qed.

(** ** Navigation *)

(** On integer keys [key_to_static_gindex] resolves key 0 to generalized
    index 2, the contents child, and raises [KeyError] for every other
    key, whichever names the module binds. *)
Theorem key_to_static_gindex_integer_keys
    (ns : Optional.Namespace V) (E : View.t V Raw) (cls : OptionalCls V Raw)
    (k : Z) :
  Optional.class_getitem E = Ok cls ->
  (View.is_basic_view E = true ->
   exists size, View.type_byte_length E = Ok size /\ 1 <= size <= 32) ->
  Optional.key_to_static_gindex ns cls (KInt k)
  = if k =? 0 then Ok 2 else Err KeyError.
Proof.
  intros Hcls Hbasic. apply class_getitem_inv in Hcls as [_ ->].
  unfold Optional.key_to_static_gindex, MonoSubtreeView.key_to_static_gindex.
  cbn.
  destruct (Z.leb_spec 1 k); cbn.
  - destruct (Z.eqb_spec k 0); [lia | reflexivity].
  - destruct (Z.ltb_spec k 0).
    + destruct (Z.eqb_spec k 0); [lia | reflexivity].
    + assert (k = 0) as -> by lia. cbn [Z.eqb].
      destruct (View.is_basic_view E); [| reflexivity].
      destruct (Hbasic eq_refl) as (size & -> & Hs).
      destruct (chunk_arith size Hs) as (H1 & H2 & _).
      cbn. rewrite H1. cbn. rewrite H2. reflexivity.
Qed.

(** A name other than the pseudo-key is compared with the limit, which
    raises [TypeError], in [key_to_static_gindex] as in [navigate_type]. *)
Theorem name_keys_raise_type_error
    (ns : Optional.Namespace V) (cls : OptionalCls V Raw) (s : string) :
  s <> "__is_some__"%string ->
  Optional.key_to_static_gindex ns cls (KStr s) = Err TypeError /\
  Optional.navigate_type cls (KStr s) = Err TypeError.
Proof.
  intros Hs. split; [| reflexivity].
  unfold Optional.key_to_static_gindex. cbn.
  destruct (String.eqb_spec s "__is_some__"); [contradiction | reflexivity].
Qed.

(** ** Printing *)

Lemma append_cancel (p a b : string) :
  (p ++ a)%string = (p ++ b)%string -> a = b.
Proof.
  induction p as [| c p IH]; cbn; intros H; [exact H |].
  injection H as H. now apply IH.
Qed.

Lemma some_form_is_not_none (p r : string) :
  (p ++ "(Some(" ++ r ++ "))")%string <> (p ++ "(None)")%string.
Proof.
  intros H. apply append_cancel in H. discriminate H.
Qed.

(** The printed form tells presence: [repr] yields the class's name
    followed by [(None)] exactly when the length is 0, however the element
    type prints its values. *)
Theorem repr_none_iff_absent
    (cls : OptionalCls V Raw) (elem_name : string) (elem_repr : V -> string)
    (x : OptionalView) (printed : string) :
  Optional.repr merkle_hash cls elem_name elem_repr x = Ok printed ->
  (printed = (Optional.type_repr elem_name ++ "(None)")%string <->
   Optional.length merkle_hash x = Ok 0).
Proof.
  unfold Optional.repr. intros H.
  apply bind_ok in H as (value & Hget & H).
  destruct value as [v |];
    cbv beta iota delta [ret Monad_result] in H; injection H as <-.
  - split.
    + intros Heq.
      destruct (some_form_is_not_none (Optional.type_repr elem_name)
                  (elem_repr v) Heq).
    + intros Hzero. apply get_none_iff_length_zero with (cls := cls) in Hzero.
      rewrite Hzero in Hget. discriminate Hget.
  - split; [| reflexivity].
    intros _. now apply get_none_iff_length_zero in Hget.
Qed.

End Coverage.

(** ** The further theorems at the example instances *)

Lemma uint8_sized : Contract.sized u8.
Proof. split; [cbn; lia | intros v; cbn; lia]. Qed.

Lemma uint8_fixed_size : Contract.fixed_size u8.
Proof. intros v. reflexivity. Qed.

Lemma set_fixes_length_witness :
  Optional.set toy_hash (Optional.as_written byte) opt_u8 some_seven
    (Some (IRaw 9)) = Ok some_nine /\
  Optional.length toy_hash some_nine = Ok 1.
Proof.
  split; [reflexivity |].
  exact (proj1 (set_fixes_length toy_hash (Optional.as_written byte) u8 opt_u8
                  some_seven some_nine (Some (IRaw 9)) uint8_accepted eq_refl)).
Defined.

Lemma raw_input_is_coerced_witness :
  (Optional.new toy_hash opt_u8 (Some (IRaw 9)) None
   = Optional.new toy_hash opt_u8 (Some (IView x09)) None) /\
  (Optional.new toy_hash opt_u8 (Some (IRaw 300)) None = Err ValueError) /\
  (Optional.set toy_hash (Optional.as_written byte) opt_u8 none_uint8
     (Some (IRaw 300)) = Err ValueError).
Proof.
  destruct (raw_input_is_coerced toy_hash (Optional.as_written byte) u8 opt_u8 9
              uint8_accepted) as [Hok _].
  destruct (raw_input_is_coerced toy_hash (Optional.as_written byte) u8 opt_u8 300
              uint8_accepted) as [_ Herr].
  exact (conj (proj1 (Hok x09 eq_refl))
          (conj (proj1 (Herr ValueError eq_refl))
                (proj2 (Herr ValueError eq_refl) none_uint8 0 eq_refl))).
Defined.

Lemma set_then_get_with_import_witness :
  exists z,
    Optional.set toy_hash (Optional.with_tree_imports byte) opt_u8
      {| backing := PairNode (RootNode ZERO_ROOT) (Uint256.get_backing 5) |}
      (Some (IView x09)) = Ok z /\
    Optional.length toy_hash z = Ok 1 /\
    Optional.get toy_hash opt_u8 z = Ok (Some x09).
Proof.
  exact (set_then_get_with_import toy_hash u8 opt_u8
           {| backing := PairNode (RootNode ZERO_ROOT) (Uint256.get_backing 5) |}
           5 x09 uint8_accepted (uint8_faithful x09) eq_refl).
Defined.

Lemma deserialize_presence_by_scope_witness :
  Optional.deserialize toy_hash opt_u8 [x07; x2a] 1 = Ok (some_seven, [x2a]) /\
  Optional.length toy_hash some_seven = Ok 1.
Proof.
  split; [reflexivity |].
  exact (proj1 (deserialize_presence_by_scope toy_hash opt_u8 [x07; x2a] [x2a] 1
                  some_seven eq_refl)).
Defined.

Lemma serialize_size_witness :
  Optional.serialize toy_hash opt_u8 some_seven [x2a] = Ok (1, [x2a; x07]) /\
  exists written,
    [x2a; x07] = [x2a] ++ written /\
    1 = Z.of_nat (List.length written) /\
    Optional.min_byte_length <= 1 <= Optional.max_byte_length opt_u8 /\
    (1 = 0 <-> Optional.length toy_hash some_seven = Ok 0).
Proof.
  split; [reflexivity |].
  exact (serialize_size toy_hash u8 opt_u8 some_seven [x2a] [x2a; x07] 1
           uint8_accepted uint8_sized eq_refl).
Defined.

Lemma value_byte_length_is_serialized_size_witness :
  Optional.serialize toy_hash opt_u8 some_seven [] = Ok (1, [x07]) /\
  Optional.value_byte_length toy_hash (Optional.as_written byte) opt_u8 some_seven
  = Ok 1.
Proof.
  split; [reflexivity |].
  exact (value_byte_length_is_serialized_size toy_hash u8 opt_u8 some_seven
           [] [x07] 1 uint8_accepted eq_refl uint8_fixed_size eq_refl).
Defined.

Lemma uint8_chunk_size :
  View.is_basic_view u8 = true ->
  exists size, View.type_byte_length u8 = Ok size /\ 1 <= size <= 32.
Proof. intros _. exists 1. split; [reflexivity | lia]. Qed.

Lemma bits_chunk_size :
  View.is_basic_view bits8 = true ->
  exists size, View.type_byte_length bits8 = Ok size /\ 1 <= size <= 32.
Proof. intros H. discriminate H. Qed.

Lemma key_to_static_gindex_integer_keys_witness :
  Optional.key_to_static_gindex (Optional.as_written byte) opt_u8 (KInt 0) = Ok 2 /\
  Optional.key_to_static_gindex (Optional.as_written (list bool)) opt_bits8 (KInt 0)
  = Ok 2 /\
  Optional.key_to_static_gindex (Optional.as_written byte) opt_u8 (KInt 1)
  = Err KeyError /\
  Optional.key_to_static_gindex (Optional.as_written byte) opt_u8 (KInt (-3))
  = Err KeyError.
Proof.
  exact (conj (key_to_static_gindex_integer_keys (Optional.as_written byte)
                 u8 opt_u8 0 uint8_accepted uint8_chunk_size)
          (conj (key_to_static_gindex_integer_keys (Optional.as_written (list bool))
                   bits8 opt_bits8 0 bitlist8_accepted bits_chunk_size)
             (conj (key_to_static_gindex_integer_keys (Optional.as_written byte)
                      u8 opt_u8 1 uint8_accepted uint8_chunk_size)
                   (key_to_static_gindex_integer_keys (Optional.as_written byte)
                      u8 opt_u8 (-3) uint8_accepted uint8_chunk_size)))).
Defined.

Lemma name_keys_raise_type_error_witness :
  Optional.key_to_static_gindex (Optional.with_tree_imports byte) opt_u8
    (KStr "__len__") = Err TypeError /\
  Optional.navigate_type opt_u8 (KStr "__len__") = Err TypeError.
Proof.
  apply (name_keys_raise_type_error (Optional.with_tree_imports byte) opt_u8
           "__len__").
  discriminate.
Defined.

Lemma repr_none_iff_absent_witness :
  Optional.repr toy_hash opt_u8 "uint8" (fun _ => "7"%string) none_uint8
  = Ok "Optional[uint8](None)"%string /\
  ("Optional[uint8](None)"%string
   = (Optional.type_repr "uint8" ++ "(None)")%string <->
   Optional.length toy_hash none_uint8 = Ok 0).
Proof.
  split; [reflexivity |].
  exact (repr_none_iff_absent toy_hash opt_u8 "uint8" (fun _ => "7"%string)
           none_uint8 "Optional[uint8](None)" eq_refl).
Defined.
